(** * The retrieval-augmented answer pipeline of [modelscope/app.py]

    A shallow embedding of the four functions of the script
    ([init_knowledge_vector_store], [get_knowledge_based_answer],
    [clear_session], [predict]) and of the wiring of its two buttons.

    The script is glue around libraries: sentence-transformers, the
    document loader, FAISS, the retriever and the ChatGLM wrapper.
    Those collaborators are kept abstract in the class [Backend]; the
    retrieval chain that joins them is written out; every
    call the script makes to one of them is recorded as an [event], so that
    "what the language model receives" or "how often weights are loaded"
    are statements about the events a run emits. *)

From Stdlib Require Import ZArith String Ascii List Floats Lia.
From stdpp Require Import base gmap strings list.

Open Scope string_scope.
Open Scope list_scope.
Open Scope Z_scope.

(* The slider defaults 0.01 and 0.9 are decimal literals, as in the script. *)
Set Warnings "-inexact-float".

(** ** Data *)

(** A conversation turn is the tuple [(input, resp)] appended by [predict]. *)
Definition turn : Type := string * string.

(** A langchain [Document]. *)
Record Document := {
  page_content : string;
  metadata : list (string * string)
}.

(** The attributes of the [ChatGLM] object that the script assigns. *)
Record ChatGLM := {
  history : list turn;
  temperature : float;
  top_p : float
}.

(** The uploaded file handle; the script only reads [file_obj.name]. *)
Record File := { name : string }.

(** Python exceptions, by class. [Raised] is an exception coming out of a
    collaborator, with its class name and message. *)
Inductive exn :=
| KeyError (key : string)
| AttributeError (msg : string)
| ValueError (msg : string)
| IndexError (msg : string)
| Raised (class msg : string).

Definition exn_class (e : exn) : string :=
  match e with
  | KeyError _ => "KeyError"
  | AttributeError _ => "AttributeError"
  | ValueError _ => "ValueError"
  | IndexError _ => "IndexError"
  | Raised class _ => class
  end.

(** ** Python list slicing: [l[start:]] *)

Definition slice_from {A : Type} (start : Z) (l : list A) : list A :=
  let len := Z.of_nat (length l) in
  let lower :=
    if start <? 0 then Z.max 0 (start + len) else Z.min start len in
  drop (Z.to_nat lower) l.

(** ** The prompt template and [str.format] *)

Definition dq : string := String "034"%char EmptyString.
Definition nl : string := String "010"%char EmptyString.

(** The text of the template up to the first replacement field. *)
Definition template_instructions : string :=
  "基于以下已知信息，简洁和专业的来回答用户的问题。" +:+ nl +:+
  "        如果无法从中得到答案，请说 " +:+ dq +:+ "根据已知信息无法回答该问题" +:+ dq +:+
  " 或 " +:+ dq +:+ "没有提供足够的相关信息" +:+ dq +:+
  "，不允许在答案中添加编造成分，答案请使用中文。" +:+ nl +:+
  nl +:+
  "        已知内容:" +:+ nl +:+
  "        ".

(** The text between the two replacement fields. *)
Definition template_question_header : string :=
  nl +:+
  nl +:+
  "        问题:" +:+ nl +:+
  "        ".

Definition prompt_template : string :=
  template_instructions +:+ "{context}" +:+
  template_question_header +:+ "{question}".

Record PromptTemplate := {
  template : string;
  input_variables : list string
}.

(** A format string is a sequence of literal pieces and replacement
    fields. *)
Inductive segment :=
| Lit (text : string)
| Field (field_name : string).

Definition snoc (s : string) (c : ascii) : string :=
  s +:+ String c EmptyString.

Definition lit_cons (text : string) (rest : list segment) : list segment :=
  match text with
  | EmptyString => rest
  | _ => Lit text :: rest
  end.

Definition open_brace : ascii := "{"%char.
Definition close_brace : ascii := "}"%char.

(** The characters that start a conversion, a format specification or an
    attribute or index access inside a replacement field. The script's
    template has none; a field containing one is rejected here. *)
Definition plain_name_char (c : ascii) : bool :=
  negb (Ascii.eqb c "!" || Ascii.eqb c ":" || Ascii.eqb c "." ||
        Ascii.eqb c "[" || Ascii.eqb c open_brace)%char.

(** [parse_format t lit field] scans the rest [t] of a format string;
    [lit] is the literal text read so far and [field] the name of the
    replacement field being read, if one is open. Doubled braces stand
    for a brace. *)
Fixpoint parse_format (t : string) (lit : string) (field : option string)
  : exn + list segment :=
  match t with
  | EmptyString =>
      match field with
      | None => inr (lit_cons lit [])
      | Some _ => inl (ValueError "expected '}' before end of string")
      end
  | String c t' =>
      match field with
      | Some fname =>
          if Ascii.eqb c close_brace then
            match parse_format t' EmptyString None with
            | inr segs => inr (Field fname :: segs)
            | inl e => inl e
            end
          else if plain_name_char c then
            parse_format t' lit (Some (snoc fname c))
          else inl (ValueError "replacement field not supported")
      | None =>
          if Ascii.eqb c open_brace then
            match t' with
            | String c' t'' =>
                if Ascii.eqb c' open_brace
                then parse_format t'' (snoc lit open_brace) None
                else
                  match parse_format t' EmptyString (Some EmptyString) with
                  | inr segs => inr (lit_cons lit segs)
                  | inl e => inl e
                  end
            | EmptyString => inl (ValueError "Single '{' encountered in format string")
            end
          else if Ascii.eqb c close_brace then
            match t' with
            | String c' t'' =>
                if Ascii.eqb c' close_brace
                then parse_format t'' (snoc lit close_brace) None
                else inl (ValueError "Single '}' encountered in format string")
            | EmptyString => inl (ValueError "Single '}' encountered in format string")
            end
          else parse_format t' (snoc lit c) None
      end
  end.

Fixpoint kwargs_get (key : string) (kwargs : list (string * string))
  : option string :=
  match kwargs with
  | [] => None
  | (k, v) :: rest => if String.eqb k key then Some v else kwargs_get key rest
  end.

Fixpoint render (segs : list segment) (kwargs : list (string * string))
  : exn + string :=
  match segs with
  | [] => inr EmptyString
  | Lit text :: rest =>
      match render rest kwargs with
      | inr s => inr (text +:+ s)
      | inl e => inl e
      end
  | Field fname :: rest =>
      match fname with
      | EmptyString => inl (IndexError "Replacement index 0 out of range")
      | _ =>
          match kwargs_get fname kwargs with
          | None => inl (KeyError fname)
          | Some v =>
              match render rest kwargs with
              | inr s => inr (v +:+ s)
              | inl e => inl e
              end
          end
      end
  end.

(** [template.format] applied to keyword arguments. *)
Definition str_format (t : string) (kwargs : list (string * string))
  : exn + string :=
  match parse_format t EmptyString None with
  | inr segs => render segs kwargs
  | inl e => inl e
  end.

Definition PromptTemplate_format (p : PromptTemplate)
    (kwargs : list (string * string)) : exn + string :=
  str_format (template p) kwargs.

(** The replacement fields of a format string, in order. *)
Definition fields_of (segs : list segment) : list string :=
  omap (fun s => match s with Field n => Some n | Lit _ => None end) segs.

(** [needle in s] on strings. *)
Fixpoint contains (needle s : string) : bool :=
  String.prefix needle s ||
  match s with
  | EmptyString => false
  | String _ s' => contains needle s'
  end.

(** ** Module-level constants of the script *)

Definition DEVICE : string := "cpu".

Definition embedding_model_dict : gmap string string :=
  {[ "ernie-tiny" := "nghuyong/ernie-3.0-nano-zh";
     "ernie-base" := "nghuyong/ernie-3.0-xbase-zh";
     "text2vec-base" := "shibing624/text2vec-base-chinese" ]}.

(** ** The interface widgets *)

(** What the chat display holds: nothing yet, a string, or a list of
    turns. [predict] writes a list to it and [clear_session] a string. *)
Inductive chat_value :=
| NoValue
| Text (s : string)
| Turns (l : list turn).

(** [displayed v = Some l] when the chat display, holding [v], shows
    exactly the turns [l]. The display iterates over its value as a
    sequence of pairs, so nothing, the empty string and the empty list
    show no turn. No statement is made ([None]) for another string, which
    is not a transcript, nor for a list with turns, whose messages the
    display shows rendered as markdown, not as they are. *)
Definition displayed (v : chat_value) : option (list turn) :=
  match v with
  | NoValue => Some []
  | Text EmptyString => Some []
  | Text _ => None
  | Turns [] => Some []
  | Turns (_ :: _) => None
  end.

Module UI.
(** The components created in the [gr.Blocks] context, by the name of
    the variable that holds each. [state] is the [gr.State], [None]
    until a handler writes to it. *)
Record t := {
  embedding_model : string;
  file : option File;
  VECTOR_SEARCH_TOP_K : Z;
  HISTORY_LEN : Z;
  temperature : float;
  top_p : float;
  chatbot : chat_value;
  message : string;
  state : option (list turn)
}.

(** The components with their initial values. *)
Definition initial : t :=
  {| embedding_model := "ernie-tiny";
     file := None;
     VECTOR_SEARCH_TOP_K := 6;
     HISTORY_LEN := 3;
     temperature := 0.01%float;
     top_p := 0.9%float;
     chatbot := NoValue;
     message := EmptyString;
     state := None |}.
End UI.

(** What the user does between two handler runs. *)
Inductive action :=
| Ask (question : string)
| Clear.

(** ** The context text of the chain *)

(** The chain that [RetrievalQA.from_llm] builds formats each retrieved
    document with the document prompt ["Context:\n{page_content}"] and
    joins the results with a blank line between them, in the order the
    retriever gave. *)
Definition document_prompt : string :=
  "Context:" +:+ nl +:+ "{page_content}".

Definition format_document (d : Document) : string :=
  "Context:" +:+ nl +:+ page_content d.

(** [sep.join(l)] on strings. *)
Fixpoint str_join (sep : string) (l : list string) : string :=
  match l with
  | [] => EmptyString
  | s :: rest =>
      match rest with
      | [] => s
      | _ :: _ => s +:+ sep +:+ str_join sep rest
      end
  end.

Definition stuff_documents (docs : list Document) : string :=
  str_join (nl +:+ nl) (format_document <$> docs).

(** ** Collaborators *)

(** The [HuggingFaceEmbeddings] object: the script reads its
    [model_name] and assigns its [client]. *)
Record HuggingFaceEmbeddings (C : Type) := {
  model_name : string;
  client : C
}.
Arguments model_name {C} _.
Arguments client {C} _.

(** The library calls of the script. Each takes the state of the world
    outside the script (files, model hub, random generator, ...) and
    returns a value or raises, with the new state of that world. *)
Class Backend := {
  world : Type;
  (** a loaded sentence-transformers model *)
  SentenceTransformer : Type;
  (** a built vector store *)
  FAISS : Type;
  (** [HuggingFaceEmbeddings(model_name=...)]: yields the client the
      constructor sets up *)
  HuggingFaceEmbeddings_init :
    string -> world -> (exn + SentenceTransformer) * world;
  (** [sentence_transformers.SentenceTransformer(model_name, device=...)] *)
  SentenceTransformer_init :
    string -> string -> world -> (exn + SentenceTransformer) * world;
  (** [UnstructuredFileLoader(filepath, mode=...).load()] *)
  UnstructuredFileLoader_load :
    string -> string -> world -> (exn + list Document) * world;
  (** [FAISS.from_documents(docs, embeddings)] *)
  FAISS_from_documents :
    list Document -> HuggingFaceEmbeddings SentenceTransformer ->
    world -> (exn + FAISS) * world;
  (** [ChatGLM()] *)
  ChatGLM_init : world -> (exn + ChatGLM) * world;
  (** the retriever [vector_store.as_retriever(search_kwargs={"k": k})]
      asked for the documents relevant to a query *)
  get_relevant_documents :
    FAISS -> Z -> string -> world -> (exn + list Document) * world;
  (** the language model called on a prompt; it reads the attributes of
      the [ChatGLM] object *)
  ChatGLM_call : ChatGLM -> string -> world -> (exn + string) * world
}.

Section Pipeline.
Context `{B : Backend}.

(** *** Events and the monad of the script *)

Inductive event :=
| Print (s : string)
| LoadEmbeddings (model : string)
| LoadSentenceTransformer (model device : string)
| LoadFile (filepath mode : string)
| BuildIndex (docs : list Document)
             (embeddings : HuggingFaceEmbeddings SentenceTransformer)
| NewChatGLM
| Retrieve (vector_store : FAISS) (k : Z) (query : string)
| Generate (llm : ChatGLM) (prompt : string).

Record outcome (A : Type) := {
  returned : exn + A;
  final : world;
  emitted : list event
}.
Arguments returned {A} _.
Arguments final {A} _.
Arguments emitted {A} _.

Definition M (A : Type) : Type := world -> outcome A.

#[global] Instance M_ret : MRet M := fun A (a : A) w =>
  {| returned := inr a; final := w; emitted := [] |}.

#[global] Instance M_bind : MBind M := fun A C (f : A -> M C) (m : M A) w =>
  let o := m w in
  match returned o with
  | inl e => {| returned := inl e; final := final o; emitted := emitted o |}
  | inr a =>
      let o' := f a (final o) in
      {| returned := returned o'; final := final o';
         emitted := emitted o ++ emitted o' |}
  end.

Definition raise {A : Type} (e : exn) : M A := fun w =>
  {| returned := inl e; final := w; emitted := [] |}.

Definition lift {A : Type} (r : exn + A) : M A :=
  match r with
  | inl e => raise e
  | inr a => mret a
  end.

(** A library call: the event is recorded, then the collaborator runs. *)
Definition call {X : Type} (ev : event)
    (f : world -> (exn + X) * world) : M X := fun w =>
  let '(r, w') := f w in
  {| returned := r; final := w'; emitted := [ev] |}.

Definition print (s : string) : M unit := fun w =>
  {| returned := inr (); final := w; emitted := [Print s] |}.

(** [d[key]] on a dict. *)
Definition dict_getitem (d : gmap string string) (key : string) : M string :=
  match d !! key with
  | Some v => mret v
  | None => raise (KeyError key)
  end.

(** [file_obj.name]; the file component holds [None] until a file is
    uploaded. *)
Definition getattr_name (file_obj : option File) : M string :=
  match file_obj with
  | Some f => mret (name f)
  | None => raise (AttributeError "'NoneType' object has no attribute 'name'")
  end.

Definition HuggingFaceEmbeddings_new (model : string)
  : M (HuggingFaceEmbeddings SentenceTransformer) :=
  c ← call (LoadEmbeddings model) (HuggingFaceEmbeddings_init model);
  mret {| model_name := model; client := c |}.

Definition SentenceTransformer_new (model device : string)
  : M SentenceTransformer :=
  call (LoadSentenceTransformer model device)
       (SentenceTransformer_init model device).

Definition loader_load (filepath mode : string) : M (list Document) :=
  call (LoadFile filepath mode) (UnstructuredFileLoader_load filepath mode).

Definition from_documents (docs : list Document)
    (embeddings : HuggingFaceEmbeddings SentenceTransformer) : M FAISS :=
  call (BuildIndex docs embeddings) (FAISS_from_documents docs embeddings).

Definition ChatGLM_new : M ChatGLM := call NewChatGLM ChatGLM_init.

(** The output of the chain: a dict with the keys [result] and
    [source_documents]. *)
Record chain_output := {
  result : string;
  source_documents : list Document
}.

(** The chain built by [RetrievalQA.from_llm] and called on
    [{"query": query}]: it asks the retriever for the [k] documents
    relevant to the query, joins them into the context
    ([stuff_documents]), formats the prompt with the context and the
    question, and calls the model. *)
Definition RetrievalQA_call (llm : ChatGLM) (vector_store : FAISS) (k : Z)
    (prompt : PromptTemplate) (query : string) : M chain_output :=
  docs ← call (Retrieve vector_store k query)
              (get_relevant_documents vector_store k query);
  text ← lift (PromptTemplate_format prompt
                 [("context", stuff_documents docs); ("question", query)]);
  answer ← call (Generate llm text) (ChatGLM_call llm text);
  mret {| result := answer; source_documents := docs |}.

(** *** The functions of the script *)

Definition init_knowledge_vector_store (embedding_model filepath : string)
  : M FAISS :=
  model ← dict_getitem embedding_model_dict embedding_model;
  embeddings ← HuggingFaceEmbeddings_new model;
  c ← SentenceTransformer_new (model_name embeddings) DEVICE;
  let embeddings := {| model_name := model_name embeddings; client := c |} in
  docs ← loader_load filepath "elements";
  from_documents docs embeddings.

(** [predict] passes every argument, so the defaults of the signature
    ([chat_history=[]], [history_len=3], [temperature=0.01],
    [top_p=0.9]) are never used. *)
Definition get_knowledge_based_answer (query : string) (vector_store : FAISS)
    (VECTOR_SEARCH_TOP_K : Z) (chat_history : list turn) (history_len : Z)
    (temperature top_p : float) : M string :=
  let prompt := {| template := prompt_template;
                   input_variables := ["context"; "question"] |} in
  _ ← ChatGLM_new;
  let chatLLM :=
    {| history := if 0 <? history_len
                  then slice_from (- history_len) chat_history
                  else [];
       temperature := temperature;
       top_p := top_p |} in
  r ← RetrievalQA_call chatLLM vector_store VECTOR_SEARCH_TOP_K prompt query;
  mret (result r).

Definition clear_session : string * option (list turn) :=
  (EmptyString, None).

(** The list [history] is extended in place and returned twice; here
    the extended list is the value in both positions. *)
Definition predict (input embedding_model : string) (file_obj : option File)
    (VECTOR_SEARCH_TOP_K history_len : Z) (temperature top_p : float)
    (history : option (list turn))
  : M (string * list turn * list turn) :=
  let history := match history with None => [] | Some h => h end in
  fname ← getattr_name file_obj;
  _ ← print fname;
  vector_store ← init_knowledge_vector_store embedding_model fname;
  resp ← get_knowledge_based_answer input vector_store VECTOR_SEARCH_TOP_K
           history history_len temperature top_p;
  _ ← print resp;
  let history := history ++ [(input, resp)] in
  mret (EmptyString, history, history).

(** *** The two buttons *)

(** [send.click(predict, inputs=[message, embedding_model, file,
    VECTOR_SEARCH_TOP_K, HISTORY_LEN, temperature, top_p, state],
    outputs=[message, chatbot, state])]; [message.submit] is wired the
    same way. *)
Definition send_click (ui : UI.t) : M UI.t :=
  '(m, c, s) ← predict (UI.message ui) (UI.embedding_model ui) (UI.file ui)
                 (UI.VECTOR_SEARCH_TOP_K ui) (UI.HISTORY_LEN ui)
                 (UI.temperature ui) (UI.top_p ui) (UI.state ui);
  mret {| UI.embedding_model := UI.embedding_model ui;
          UI.file := UI.file ui;
          UI.VECTOR_SEARCH_TOP_K := UI.VECTOR_SEARCH_TOP_K ui;
          UI.HISTORY_LEN := UI.HISTORY_LEN ui;
          UI.temperature := UI.temperature ui;
          UI.top_p := UI.top_p ui;
          UI.chatbot := Turns c;
          UI.message := m;
          UI.state := Some s |}.

(** [clear_history.click(fn=clear_session, inputs=[],
    outputs=[chatbot, state])]. *)
Definition clear_history_click (ui : UI.t) : UI.t :=
  let '(c, s) := clear_session in
  {| UI.embedding_model := UI.embedding_model ui;
     UI.file := UI.file ui;
     UI.VECTOR_SEARCH_TOP_K := UI.VECTOR_SEARCH_TOP_K ui;
     UI.HISTORY_LEN := UI.HISTORY_LEN ui;
     UI.temperature := UI.temperature ui;
     UI.top_p := UI.top_p ui;
     UI.chatbot := Text c;
     UI.message := UI.message ui;
     UI.state := s |}.

Definition type_message (q : string) (ui : UI.t) : UI.t :=
  {| UI.embedding_model := UI.embedding_model ui;
     UI.file := UI.file ui;
     UI.VECTOR_SEARCH_TOP_K := UI.VECTOR_SEARCH_TOP_K ui;
     UI.HISTORY_LEN := UI.HISTORY_LEN ui;
     UI.temperature := UI.temperature ui;
     UI.top_p := UI.top_p ui;
     UI.chatbot := UI.chatbot ui;
     UI.message := q;
     UI.state := UI.state ui |}.

(** One user action: typing a question and sending it, or clearing. *)
Definition step (a : action) (ui : UI.t) : M UI.t :=
  match a with
  | Ask q => send_click (type_message q ui)
  | Clear => mret (clear_history_click ui)
  end.

(** A session in one process: the handlers run one after the other, each
    on the components as the previous one left them. *)
Fixpoint run (actions : list action) (ui : UI.t) : M UI.t :=
  match actions with
  | [] => mret ui
  | a :: rest => ui' ← step a ui; run rest ui'
  end.

(** *** Reading the events of a run *)

(** The calls of the language model: the object and the prompt. *)
Definition llm_calls (evs : list event) : list (ChatGLM * string) :=
  omap (fun ev => match ev with
                  | Generate llm p => Some (llm, p)
                  | _ => None
                  end) evs.

(** The models whose weights were loaded, one entry per load: the
    [HuggingFaceEmbeddings] constructor loads the model to set up its own
    client, and constructing a [SentenceTransformer] loads it too. *)
Definition weight_loads (evs : list event) : list string :=
  omap (fun ev => match ev with
                  | LoadEmbeddings m => Some m
                  | LoadSentenceTransformer m _ => Some m
                  | _ => None
                  end) evs.

(** The files that were loaded and the document lists that were
    indexed. *)
Definition file_loads (evs : list event) : list string :=
  omap (fun ev => match ev with
                  | LoadFile f _ => Some f
                  | _ => None
                  end) evs.

Definition index_builds (evs : list event) : list (list Document) :=
  omap (fun ev => match ev with
                  | BuildIndex docs _ => Some docs
                  | _ => None
                  end) evs.

Definition asks (actions : list action) : list string :=
  omap (fun a => match a with Ask q => Some q | Clear => None end) actions.

End Pipeline.

Arguments returned {B A} _.
Arguments final {B A} _.
Arguments emitted {B A} _.

(** ** A concrete backend

    Used to run the script on explicit inputs. Its world counts the library
    calls made so far; every upload reads as a one-paragraph file; the
    retriever returns the first [k] indexed documents and the model always
    answers "Paris". *)
Module Demo.

Definition corpus : list Document :=
  [ {| page_content := "The capital of France is Paris.";
       metadata := [("category", "NarrativeText")] |} ].

Definition tick {X : Type} (x : X) (w : nat) : (exn + X) * nat :=
  (inr x, S w).

Definition backend : Backend :=
  {| world := nat;
     SentenceTransformer := string;
     FAISS := list Document;
     HuggingFaceEmbeddings_init := fun model => tick model;
     SentenceTransformer_init := fun model device => tick model;
     UnstructuredFileLoader_load := fun filepath mode => tick corpus;
     FAISS_from_documents := fun docs embeddings => tick docs;
     ChatGLM_init :=
       tick {| history := []; temperature := 0.01%float; top_p := 0.9%float |};
     get_relevant_documents := fun vs k query => tick (take (Z.to_nat k) vs);
     ChatGLM_call := fun llm prompt => tick "Paris" |}.

Definition upload : File := {| name := "/tmp/gradio/france.txt" |}.

(** The widgets after a file was uploaded. *)
Definition ready : UI.t :=
  {| UI.embedding_model := "ernie-tiny";
     UI.file := Some upload;
     UI.VECTOR_SEARCH_TOP_K := 6;
     UI.HISTORY_LEN := 3;
     UI.temperature := 0.01%float;
     UI.top_p := 0.9%float;
     UI.chatbot := NoValue;
     UI.message := EmptyString;
     UI.state := None |}.

Definition question : string := "What is the capital of France?".

(** A conversation of five turns and its three most recent ones. *)
Definition five_turns : list turn :=
  [("q1", "a1"); ("q2", "a2"); ("q3", "a3"); ("q4", "a4"); ("q5", "a5")].

Definition last_three : list turn :=
  [("q3", "a3"); ("q4", "a4"); ("q5", "a5")].

(** The prompt for [question] over [corpus]. *)
Definition prompt : string :=
  template_instructions +:+
  "Context:" +:+ nl +:+ "The capital of France is Paris." +:+
  template_question_header +:+ question.

Definition configured (h : list turn) : ChatGLM :=
  {| history := h; temperature := 0.01%float; top_p := 0.9%float |}.

End Demo.

(** ** More of the script *)

(** The choices of the [embedding_model] dropdown. *)
Definition embedding_model_choices : list string :=
  ["ernie-tiny"; "ernie-base"; "text2vec-base"].

(** The list of turns a state stands for: [predict] reads [None] as the
    empty list. *)
Definition state_turns (s : option (list turn)) : list turn :=
  match s with
  | None => []
  | Some h => h
  end.

(** The questions a session has asked since it was last cleared, after
    [before]. *)
Definition asked_since_clear (actions : list action) (before : list string)
  : list string :=
  fold_left (fun acc a => match a with
                          | Ask q => acc ++ [q]
                          | Clear => []
                          end) actions before.

(** The settings widgets: everything but the chat display, the question
    box and the state. *)
Definition settings (ui : UI.t)
  : string * option File * Z * Z * float * float :=
  (UI.embedding_model ui, UI.file ui, UI.VECTOR_SEARCH_TOP_K ui,
   UI.HISTORY_LEN ui, UI.temperature ui, UI.top_p ui).

(** ** Backends with a failing collaborator *)
Module Faulty.

(** As [Demo.backend], but the loader rejects every file. *)
Definition unreadable : Backend :=
  {| world := nat;
     SentenceTransformer := string;
     FAISS := list Document;
     HuggingFaceEmbeddings_init := fun model => Demo.tick model;
     SentenceTransformer_init := fun model device => Demo.tick model;
     UnstructuredFileLoader_load := fun filepath mode w =>
       (inl (Raised "ValueError" "Invalid file"), S w);
     FAISS_from_documents := fun docs embeddings => Demo.tick docs;
     ChatGLM_init := Demo.tick (Demo.configured []);
     get_relevant_documents := fun vs k query =>
       Demo.tick (take (Z.to_nat k) vs);
     ChatGLM_call := fun llm prompt => Demo.tick "Paris" |}.


Definition invalid_file : exn := Raised "ValueError" "Invalid file".

End Faulty.

(** ** A short session on the concrete backend *)
Module Session.

(** The widgets once [Demo.question] was sent from [Demo.ready]. *)
Definition after_first : UI.t :=
  {| UI.embedding_model := "ernie-tiny";
     UI.file := Some Demo.upload;
     UI.VECTOR_SEARCH_TOP_K := 6;
     UI.HISTORY_LEN := 3;
     UI.temperature := 0.01%float;
     UI.top_p := 0.9%float;
     UI.chatbot := Turns [(Demo.question, "Paris")];
     UI.message := EmptyString;
     UI.state := Some [(Demo.question, "Paris")] |}.

Definition follow_up : string := "And what is its population?".

Definition follow_up_prompt : string :=
  template_instructions +:+
  "Context:" +:+ nl +:+ "The capital of France is Paris." +:+
  template_question_header +:+ follow_up.

Definition actions : list action :=
  [Ask "a"; Clear; Ask "b"; Ask "c"].

Definition ernie_nano : HuggingFaceEmbeddings string :=
  {| model_name := "nghuyong/ernie-3.0-nano-zh";
     client := "nghuyong/ernie-3.0-nano-zh" |}.

End Session.

(** * Properties *)

(** ** Python slicing *)

Section Slicing.
Context {A : Type}.
Implicit Types (l : list A) (n : Z).

Lemma slice_from_suffix start l :
  exists older, l = older ++ slice_from start l.
Proof.
  unfold slice_from.
  eexists. symmetry. apply take_drop.
Qed.

(** [l[-n:]] for a positive [n] has [min (len l) n] elements. *)
Lemma slice_last_length n l :
  0 < n ->
  Z.of_nat (length (slice_from (- n) l)) = Z.min (Z.of_nat (length l)) n.
Proof.
  intros Hn. unfold slice_from.
  destruct (Z.ltb_spec (- n) 0) as [_ | Hge]; [| lia].
  rewrite length_drop. lia.
Qed.

Lemma slice_last_all n l :
  Z.of_nat (length l) <= n -> slice_from (- n) l = l.
Proof.
  intros Hn. unfold slice_from.
  destruct (Z.ltb_spec (- n) 0) as [_ | Hge].
  - replace (Z.to_nat (Z.max 0 (- n + Z.of_nat (length l)))) with 0%nat by lia.
    reflexivity.
  - replace (Z.to_nat (Z.min (- n) (Z.of_nat (length l)))) with 0%nat by lia.
    reflexivity.
Qed.
End Slicing.

(** ** Formatting *)

Lemma prefix_split p s :
  String.prefix p s = true -> exists b, s = p +:+ b.
Proof.
  revert s. induction p as [| c p IH]; intros s Hp.
  - exists s. reflexivity.
  - destruct s as [| c' s]; [discriminate |].
    cbn [String.prefix] in Hp.
    destruct (ascii_dec c c') as [-> | _]; [| discriminate].
    destruct (IH s Hp) as [b ->].
    exists b. reflexivity.
Qed.

Lemma contains_infix needle s :
  contains needle s = true -> exists a b, s = a +:+ needle +:+ b.
Proof.
  induction s as [| c s IH]; cbn [contains]; intros Hc;
    apply orb_prop in Hc as [Hp | Hc]; try discriminate.
  - destruct (prefix_split _ _ Hp) as [b Hb].
    exists EmptyString, b. exact Hb.
  - destruct (prefix_split _ _ Hp) as [b Hb].
    exists EmptyString, b. exact Hb.
  - destruct (IH Hc) as (a & b & ->).
    exists (String c a), b. reflexivity.
Qed.

Lemma append_empty_r s : s +:+ EmptyString = s.
Proof.
  induction s as [| c s IH]; [reflexivity |].
  change (String c s +:+ EmptyString) with (String c (s +:+ EmptyString)).
  rewrite IH. reflexivity.
Qed.

Lemma prompt_template_parse :
  parse_format prompt_template EmptyString None =
  inr [Lit template_instructions; Field "context";
       Lit template_question_header; Field "question"].
Proof. vm_compute. reflexivity. Qed.

Lemma prompt_template_format context question :
  str_format prompt_template [("context", context); ("question", question)] =
  inr (template_instructions +:+ context +:+
       template_question_header +:+ question).
Proof.
  unfold str_format. rewrite prompt_template_parse.
  cbn [render kwargs_get].
  change (String.eqb "context" "context") with true.
  change (String.eqb "context" "question") with false.
  change (String.eqb "question" "question") with true.
  cbn iota. rewrite append_empty_r. reflexivity.
Qed.

(** ** The monad *)

Section Properties.
Context `{B : Backend}.

Lemma bind_raise {X Y : Type} (m : M X) (f : X -> M Y) w e :
  returned (m w) = inl e ->
  (m ≫= f) w =
  {| returned := inl e; final := final (m w); emitted := emitted (m w) |}.
Proof.
  intros Hm. unfold mbind, M_bind. cbv zeta. rewrite Hm. reflexivity.
Qed.

Lemma bind_return {X Y : Type} (m : M X) (f : X -> M Y) w x :
  returned (m w) = inr x ->
  (m ≫= f) w =
  {| returned := returned (f x (final (m w)));
     final := final (f x (final (m w)));
     emitted := emitted (m w) ++ emitted (f x (final (m w))) |}.
Proof.
  intros Hm. unfold mbind, M_bind. cbv zeta. rewrite Hm. reflexivity.
Qed.

(** A bind that returns went through both halves. *)
Lemma bind_returned {X Y : Type} (m : M X) (f : X -> M Y) w y :
  returned ((m ≫= f) w) = inr y ->
  exists x,
    returned (m w) = inr x /\
    returned (f x (final (m w))) = inr y /\
    final ((m ≫= f) w) = final (f x (final (m w))) /\
    emitted ((m ≫= f) w) = emitted (m w) ++ emitted (f x (final (m w))).
Proof.
  destruct (returned (m w)) as [e | x] eqn:Hm.
  - rewrite (bind_raise _ _ _ _ Hm). discriminate.
  - rewrite (bind_return _ _ _ _ Hm). cbn. intros Hy.
    exists x. auto.
Qed.

(** An event of a bind comes from one of its halves. *)
Lemma bind_emitted {X Y : Type} (m : M X) (f : X -> M Y) w ev :
  In ev (emitted ((m ≫= f) w)) ->
  In ev (emitted (m w)) \/
  exists x, returned (m w) = inr x /\ In ev (emitted (f x (final (m w)))).
Proof.
  destruct (returned (m w)) as [e | x] eqn:Hm.
  - rewrite (bind_raise _ _ _ _ Hm). cbn. auto.
  - rewrite (bind_return _ _ _ _ Hm). cbn. rewrite in_app_iff.
    intros [Hin | Hin]; [auto | right; exists x; auto].
Qed.

Lemma call_emitted {X : Type} ev (f : world -> (exn + X) * world) w :
  emitted (call ev f w) = [ev].
Proof. unfold call. destruct (f w) as [r w']. reflexivity. Qed.

Lemma call_returned {X : Type} ev (f : world -> (exn + X) * world) w :
  returned (call ev f w) = (f w).1.
Proof. unfold call. destruct (f w) as [r w']. reflexivity. Qed.

Lemma call_final {X : Type} ev (f : world -> (exn + X) * world) w :
  final (call ev f w) = (f w).2.
Proof. unfold call. destruct (f w) as [r w']. reflexivity. Qed.

Lemma lift_emitted {X : Type} (r : exn + X) w : emitted (lift r w) = [].
Proof. destruct r; reflexivity. Qed.

Lemma lift_returned {X : Type} (r : exn + X) w : returned (lift r w) = r.
Proof. destruct r; reflexivity. Qed.

Lemma lift_final {X : Type} (r : exn + X) w : final (lift r w) = w.
Proof. destruct r; reflexivity. Qed.


Lemma print_run s w :
  print s w = {| returned := inr (); final := w; emitted := [Print s] |}.
Proof. reflexivity. Qed.

Lemma dict_getitem_returned d key w v :
  returned (dict_getitem d key w) = inr v ->
  d !! key = Some v /\ dict_getitem d key w =
    {| returned := inr v; final := w; emitted := [] |}.
Proof.
  unfold dict_getitem. destruct (d !! key) as [v' |]; cbn; [| discriminate].
  intros [= ->]. auto.
Qed.

Lemma dict_getitem_missing d key w :
  d !! key = None ->
  dict_getitem d key w =
  {| returned := inl (KeyError key); final := w; emitted := [] |}.
Proof. unfold dict_getitem. intros ->. reflexivity. Qed.

Lemma dict_getitem_emitted d key w : emitted (dict_getitem d key w) = [].
Proof. unfold dict_getitem. destruct (d !! key); reflexivity. Qed.

Lemma getattr_name_emitted file_obj w : emitted (getattr_name file_obj w) = [].
Proof. destruct file_obj; reflexivity. Qed.

Lemma getattr_name_returned file_obj w fname :
  returned (getattr_name file_obj w) = inr fname ->
  exists f, file_obj = Some f /\ fname = name f /\
            final (getattr_name file_obj w) = w.
Proof.
  destruct file_obj as [f |]; cbn; [| discriminate].
  intros [= <-]. eauto.
Qed.

(** *** Events of the three functions *)

Ltac split_bind H :=
  apply bind_emitted in H as [H | (? & _ & H)].

Ltac single_event H :=
  first [ rewrite call_emitted in H
        | rewrite lift_emitted in H
        | rewrite dict_getitem_emitted in H
        | rewrite getattr_name_emitted in H ];
  cbn in H; intuition (try discriminate).

(** Building the vector store never calls the language model. *)
Lemma init_no_generate embedding_model filepath w llm p :
  ~ In (Generate llm p)
       (emitted (init_knowledge_vector_store embedding_model filepath w)).
Proof.
  intros H.
  unfold init_knowledge_vector_store, SentenceTransformer_new, loader_load,
    from_documents in H.
  split_bind H; [single_event H |].
  unfold HuggingFaceEmbeddings_new in H.
  split_bind H; [split_bind H; [single_event H | cbn in H; tauto] |].
  split_bind H; [single_event H |].
  split_bind H; single_event H.
Qed.

(** Every call of the language model made by the answer function
    carries the object configured on lines 62 to 64 and the template
    filled with the text of the retrieved documents and the query. *)
Lemma answer_generate query vector_store k chat_history history_len
    temperature top_p w llm p :
  In (Generate llm p)
     (emitted (get_knowledge_based_answer query vector_store k chat_history
                 history_len temperature top_p w)) ->
  llm = {| history := if 0 <? history_len
                      then slice_from (- history_len) chat_history
                      else [];
           temperature := temperature;
           top_p := top_p |} /\
  exists docs w1,
    (get_relevant_documents vector_store k query w1).1 = inr docs /\
    p = template_instructions +:+ stuff_documents docs +:+
        template_question_header +:+ query.
Proof.
  intros H.
  unfold get_knowledge_based_answer, ChatGLM_new, RetrievalQA_call in H.
  split_bind H; [single_event H |].
  split_bind H; [| cbn in H; tauto].
  match type of H with
  | In _ (emitted (_ ?w0)) =>
      apply (bind_emitted _ _ w0) in H as [H | (docs & Hdocs & H)]
  end; [single_event H |].
  rewrite call_returned in Hdocs.
  match type of H with
  | In _ (emitted (_ ?w0)) =>
      apply (bind_emitted _ _ w0) in H as [H | (text & Htext & H)]
  end; [single_event H |].
  rewrite lift_returned in Htext.
  unfold PromptTemplate_format in Htext. cbn [template] in Htext.
  rewrite prompt_template_format in Htext. injection Htext as <-.
  split_bind H; [| cbn in H; tauto].
  rewrite call_emitted in H. cbn in H.
  destruct H as [[= <- <-] | []].
  split; [reflexivity | eauto].
Qed.

(** A run of the answer function that returns made exactly three
    library calls. *)
Lemma answer_returned query vector_store k chat_history history_len
    temperature top_p w a :
  returned (get_knowledge_based_answer query vector_store k chat_history
              history_len temperature top_p w) = inr a ->
  exists docs,
    emitted (get_knowledge_based_answer query vector_store k chat_history
               history_len temperature top_p w) =
    [ NewChatGLM;
      Retrieve vector_store k query;
      Generate {| history := if 0 <? history_len
                             then slice_from (- history_len) chat_history
                             else [];
                  temperature := temperature;
                  top_p := top_p |}
               (template_instructions +:+ stuff_documents docs +:+
                template_question_header +:+ query) ].
Proof.
  intros H.
  unfold get_knowledge_based_answer, ChatGLM_new, RetrievalQA_call in *.
  apply bind_returned in H as (c & _ & H & _ & ->).
  apply bind_returned in H as (r & Hr & _ & _ & ->).
  apply bind_returned in Hr as (docs & _ & Hr & _ & ->).
  apply bind_returned in Hr as (text & Htext & Hr & _ & ->).
  apply bind_returned in Hr as (ans & _ & _ & _ & ->).
  rewrite lift_returned in Htext.
  unfold PromptTemplate_format in Htext. cbn [template] in Htext.
  rewrite prompt_template_format in Htext. injection Htext as <-.
  rewrite !call_emitted, lift_emitted. cbn.
  exists docs. reflexivity.
Qed.

(** *** [predict] *)

Lemma predict_run input embedding_model f k history_len temperature top_p
    hist w vector_store a :
  let h := match hist with None => [] | Some h => h end in
  let built := init_knowledge_vector_store embedding_model (name f) w in
  let answered := get_knowledge_based_answer input vector_store k h
                    history_len temperature top_p (final built) in
  returned built = inr vector_store ->
  returned answered = inr a ->
  predict input embedding_model (Some f) k history_len temperature top_p
          hist w =
  {| returned := inr (EmptyString, h ++ [(input, a)], h ++ [(input, a)]);
     final := final answered;
     emitted := Print (name f) :: emitted built ++ emitted answered ++
                [Print a] |}.
Proof.
  intros h built answered Hbuilt Hanswered. unfold predict.
  rewrite (bind_return (getattr_name (Some f)) _ w (name f) eq_refl).
  cbn [getattr_name final emitted mret M_ret].
  rewrite (bind_return (print (name f)) _ w () eq_refl).
  rewrite print_run. cbn [final emitted].
  rewrite (bind_return _ _ _ _ Hbuilt).
  rewrite (bind_return _ _ _ _ Hanswered).
  rewrite (bind_return (print a) _ _ () eq_refl).
  rewrite print_run. cbn. reflexivity.
Qed.

Lemma predict_returned input embedding_model file_obj k history_len
    temperature top_p hist w out :
  let h := match hist with None => [] | Some h => h end in
  returned (predict input embedding_model file_obj k history_len
              temperature top_p hist w) = inr out ->
  exists f vector_store a,
    file_obj = Some f /\
    returned (init_knowledge_vector_store embedding_model (name f) w) =
      inr vector_store /\
    returned (get_knowledge_based_answer input vector_store k h history_len
                temperature top_p
                (final (init_knowledge_vector_store embedding_model
                          (name f) w))) = inr a /\
    out = (EmptyString, h ++ [(input, a)], h ++ [(input, a)]).
Proof.
  intros h H. unfold predict in H.
  apply bind_returned in H as (fname & Hf & H & _ & _).
  apply getattr_name_returned in Hf as (f & -> & -> & _).
  cbn [getattr_name final] in H.
  apply bind_returned in H as ([] & _ & H & _ & _).
  rewrite print_run in H. cbn [final] in H.
  apply bind_returned in H as (vs & Hvs & H & _ & _).
  apply bind_returned in H as (a & Ha & H & _ & _).
  apply bind_returned in H as ([] & _ & H & _ & _).
  cbn in H. injection H as <-.
  exists f, vs, a. auto.
Qed.

Lemma predict_generate input embedding_model file_obj k history_len
    temperature top_p hist w llm p :
  In (Generate llm p)
     (emitted (predict input embedding_model file_obj k history_len
                 temperature top_p hist w)) ->
  llm = {| history :=
             if 0 <? history_len
             then slice_from (- history_len)
                    (match hist with None => [] | Some h => h end)
             else [];
           temperature := temperature;
           top_p := top_p |} /\
  exists docs vector_store w1,
    (get_relevant_documents vector_store k input w1).1 = inr docs /\
    p = template_instructions +:+ stuff_documents docs +:+
        template_question_header +:+ input.
Proof.
  intros H. unfold predict in H.
  split_bind H; [single_event H |].
  split_bind H; [cbn in H; intuition discriminate |].
  split_bind H; [exfalso; eapply init_no_generate; eassumption |].
  split_bind H;
    [apply answer_generate in H as (-> & docs & w1 & Hdocs & ->); eauto 8 |].
  split_bind H; cbn in H; intuition discriminate.
Qed.

(** A run of [init_knowledge_vector_store] that returns made exactly
    four library calls, and returns what [FAISS.from_documents] gave
    for the documents just loaded. *)
Lemma init_returned embedding_model filepath w vector_store :
  returned (init_knowledge_vector_store embedding_model filepath w) =
    inr vector_store ->
  exists model c docs w2 w3,
    embedding_model_dict !! embedding_model = Some model /\
    returned (loader_load filepath "elements" w2) = inr docs /\
    returned (from_documents docs {| model_name := model; client := c |} w3)
      = inr vector_store /\
    emitted (init_knowledge_vector_store embedding_model filepath w) =
    [ LoadEmbeddings model;
      LoadSentenceTransformer model DEVICE;
      LoadFile filepath "elements";
      BuildIndex docs {| model_name := model; client := c |} ].
Proof.
  intros H.
  unfold init_knowledge_vector_store, HuggingFaceEmbeddings_new in *.
  apply bind_returned in H as (model & Hmodel & H & _ & ->).
  apply dict_getitem_returned in Hmodel as [Hmodel _].
  apply bind_returned in H as (emb & Hemb & H & _ & ->).
  apply bind_returned in Hemb as (c0 & _ & Hemb & _ & ->).
  cbn in Hemb. injection Hemb as <-. cbn [model_name] in *.
  apply bind_returned in H as (c & _ & H & _ & ->).
  apply bind_returned in H as (docs & Hdocs & H & _ & ->).
  unfold SentenceTransformer_new, loader_load, from_documents in *.
  rewrite !call_emitted, dict_getitem_emitted. cbn [emitted mret M_ret app].
  eexists model, c, docs, _, _.
  split; [exact Hmodel |]. split; [exact Hdocs |]. split; [exact H |].
  reflexivity.
Qed.

(** *** The send button *)

Lemma send_click_emitted ui w :
  emitted (send_click ui w) =
  emitted (predict (UI.message ui) (UI.embedding_model ui) (UI.file ui)
             (UI.VECTOR_SEARCH_TOP_K ui) (UI.HISTORY_LEN ui)
             (UI.temperature ui) (UI.top_p ui) (UI.state ui) w).
Proof.
  unfold send_click.
  match goal with
  | |- emitted ((?m ≫= ?f) w) = _ =>
      destruct (returned (m w)) as [e | [[msg c] s]] eqn:Hm;
      [ rewrite (bind_raise m f w e Hm)
      | rewrite (bind_return m f w _ Hm) ]
  end; cbn; [| rewrite app_nil_r]; reflexivity.
Qed.

Lemma send_click_returned ui w ui' :
  returned (send_click ui w) = inr ui' ->
  exists out,
    returned (predict (UI.message ui) (UI.embedding_model ui) (UI.file ui)
                (UI.VECTOR_SEARCH_TOP_K ui) (UI.HISTORY_LEN ui)
                (UI.temperature ui) (UI.top_p ui) (UI.state ui) w) = inr out /\
    UI.message ui' = out.1.1 /\
    UI.chatbot ui' = Turns out.1.2 /\
    UI.state ui' = Some out.2.
Proof.
  intros H. unfold send_click in H.
  apply bind_returned in H as ([[msg c] s] & Hout & H & _ & _).
  cbn in H. injection H as <-.
  eexists. split; [exact Hout |]. auto.
Qed.

(** The events of a call of [predict] that returns: nine, in this
    order. *)
Lemma predict_trace input embedding_model file_obj k history_len
    temperature top_p hist w out :
  returned (predict input embedding_model file_obj k history_len
              temperature top_p hist w) = inr out ->
  exists f model c docs vector_store llm prompt a w2 w3,
    file_obj = Some f /\
    embedding_model_dict !! embedding_model = Some model /\
    returned (loader_load (name f) "elements" w2) = inr docs /\
    returned (from_documents docs {| model_name := model; client := c |} w3)
      = inr vector_store /\
    emitted (predict input embedding_model file_obj k history_len
               temperature top_p hist w) =
    [ Print (name f);
      LoadEmbeddings model;
      LoadSentenceTransformer model DEVICE;
      LoadFile (name f) "elements";
      BuildIndex docs {| model_name := model; client := c |};
      NewChatGLM;
      Retrieve vector_store k input;
      Generate llm prompt;
      Print a ].
Proof.
  intros H.
  apply predict_returned in H as (f & vs & a & -> & Hvs & Ha & _).
  rewrite (predict_run _ _ _ _ _ _ _ _ _ _ _ Hvs Ha).
  cbn [emitted].
  apply init_returned in Hvs
    as (model & c & docs & w2 & w3 & Hm & Hl & Hb & ->).
  apply answer_returned in Ha as (ctx & ->).
  cbn [app].
  eexists f, model, c, docs, vs, _, _, a, w2, w3.
  split; [reflexivity |]. split; [exact Hm |].
  split; [exact Hl |]. split; [exact Hb |].
  reflexivity.
Qed.

(** A call of [predict] on an uploaded file prints the file name and
    then runs [init_knowledge_vector_store] on it, whatever comes
    after. *)
Lemma predict_emitted_prefix input embedding_model f k history_len
    temperature top_p hist w :
  exists rest,
    emitted (predict input embedding_model (Some f) k history_len
               temperature top_p hist w) =
    Print (name f) ::
    emitted (init_knowledge_vector_store embedding_model (name f) w) ++ rest.
Proof.
  unfold predict.
  rewrite (bind_return (getattr_name (Some f)) _ w (name f) eq_refl).
  cbn [getattr_name final emitted mret M_ret].
  rewrite (bind_return (print (name f)) _ w () eq_refl).
  rewrite print_run. cbn [final emitted app].
  destruct (returned (init_knowledge_vector_store embedding_model (name f) w))
    as [e | vs] eqn:Hvs.
  - rewrite (bind_raise _ _ _ _ Hvs). cbn [emitted].
    exists []. rewrite app_nil_r. reflexivity.
  - rewrite (bind_return _ _ _ _ Hvs). cbn [emitted]. eauto.
Qed.

(** *** Sessions *)

(** Counting events over a session that ran to its end: one per
    question asked, for any count that is additive and is one on a send
    that returns. *)
Lemma run_count (count : list event -> nat) :
  (forall evs evs', count (evs ++ evs') = (count evs + count evs')%nat) ->
  (forall ui w ui',
      returned (send_click ui w) = inr ui' ->
      count (emitted (send_click ui w)) = 1%nat) ->
  forall actions ui w ui',
    returned (run actions ui w) = inr ui' ->
    count (emitted (run actions ui w)) = length (asks actions).
Proof.
  intros Hadd Hsend.
  assert (Hnil : count [] = 0%nat).
  { specialize (Hadd [] []). cbn in Hadd. lia. }
  induction actions as [| a actions IH]; intros ui w ui' H.
  - cbn. exact Hnil.
  - cbn [run] in *.
    apply bind_returned in H as (ui1 & Hstep & H & _ & ->).
    rewrite Hadd, (IH _ _ _ H).
    destruct a as [q |]; cbn [step asks omap] in *.
    + rewrite (Hsend _ _ _ Hstep). reflexivity.
    + cbn. rewrite Hnil. reflexivity.
Qed.

(** The same for a count that is [c] on every send that returns. *)
Lemma run_count_by (count : list event -> nat) (c : nat) :
  (forall evs evs', count (evs ++ evs') = (count evs + count evs')%nat) ->
  (forall ui w ui',
      returned (send_click ui w) = inr ui' ->
      count (emitted (send_click ui w)) = c) ->
  forall actions ui w ui',
    returned (run actions ui w) = inr ui' ->
    count (emitted (run actions ui w)) = (c * length (asks actions))%nat.
Proof.
  intros Hadd Hsend.
  assert (Hnil : count [] = 0%nat).
  { specialize (Hadd [] []). cbn in Hadd. lia. }
  induction actions as [| a actions IH]; intros ui w ui' H.
  - cbn. rewrite Hnil. lia.
  - cbn [run] in *.
    apply bind_returned in H as (ui1 & Hstep & H & _ & ->).
    rewrite Hadd, (IH _ _ _ H).
    destruct a as [q |]; cbn [step asks omap] in *.
    + rewrite (Hsend _ _ _ Hstep).
      change (asks (Ask q :: actions)) with (q :: asks actions).
      cbn [length]. nia.
    + cbn. rewrite Hnil. reflexivity.
Qed.

Lemma catalog_lookup_none key :
  key <> "ernie-tiny" -> key <> "ernie-base" -> key <> "text2vec-base" ->
  embedding_model_dict !! key = None.
Proof.
  intros H1 H2 H3. unfold embedding_model_dict.
  rewrite lookup_insert_ne by congruence.
  rewrite lookup_insert_ne by congruence.
  apply lookup_singleton_ne. congruence.
Qed.

(** ** The claims *)

(** C1. Whenever the answer pipeline calls the language model, the
    object it calls carries, for [history_len = N > 0], exactly the
    [min H N] most recent turns of the [H] turns of the conversation, in
    their order (the conversation is some older turns followed by the
    received ones), and for [N = 0] no turn at all. *)
Theorem history_truncation query vector_store k chat_history history_len
    temperature top_p w llm prompt :
  In (Generate llm prompt)
     (emitted (get_knowledge_based_answer query vector_store k chat_history
                 history_len temperature top_p w)) ->
  (0 < history_len ->
     Z.of_nat (length (history llm)) =
       Z.min (Z.of_nat (length chat_history)) history_len /\
     exists older, chat_history = older ++ history llm) /\
  (history_len = 0 -> history llm = []).
Proof.
  intros H. apply answer_generate in H as [-> _]. cbn [history].
  split.
  - intros Hpos.
    destruct (Z.ltb_spec 0 history_len) as [_ | Hle]; [| lia].
    split; [apply slice_last_length; exact Hpos | apply slice_from_suffix].
  - intros ->. reflexivity.
Qed.

(** C2. A call of [predict] on query [input] whose vector store was
    built and whose pipeline gave the answer [a] returns, as chat
    display and as state, the history it was given followed by the one
    turn [(input, a)]; every turn of the given history is still at its
    position. The answer reaches the caller as the second half of that
    last turn. *)
Theorem predict_appends_turn input embedding_model f k history_len
    temperature top_p hist w vector_store a :
  let h := match hist with None => [] | Some h => h end in
  returned (init_knowledge_vector_store embedding_model (name f) w) =
    inr vector_store ->
  returned (get_knowledge_based_answer input vector_store k h history_len
              temperature top_p
              (final (init_knowledge_vector_store embedding_model (name f) w)))
    = inr a ->
  exists new,
    returned (predict input embedding_model (Some f) k history_len
                temperature top_p hist w) = inr (EmptyString, new, new) /\
    new = h ++ [(input, a)] /\
    last new = Some (input, a) /\
    (forall i t, h !! i = Some t -> new !! i = Some t).
Proof.
  intros h Hvs Ha.
  exists (h ++ [(input, a)]).
  rewrite (predict_run _ _ _ _ _ _ _ _ _ _ _ Hvs Ha).
  split; [reflexivity |]. split; [reflexivity |].
  split; [apply last_snoc |].
  intros i t Hi. apply lookup_app_l_Some. exact Hi.
Qed.

(** C3. A call of [predict] on an uploaded file starts by running
    [init_knowledge_vector_store] on that file; a call that returns has
    loaded the file once, built one index from the documents it just
    loaded, and searched the store that this build returned; and a
    session that ran to its end built as many indexes and loaded as many
    files as questions were asked. *)
Theorem predict_rebuilds_index input embedding_model f k history_len
    temperature top_p hist w :
  let run_predict := predict input embedding_model (Some f) k history_len
                       temperature top_p hist w in
  (exists rest,
     emitted run_predict =
     Print (name f) ::
     emitted (init_knowledge_vector_store embedding_model (name f) w) ++ rest)
  /\
  (forall out,
     returned run_predict = inr out ->
     exists docs embeddings vector_store w2 w3,
       file_loads (emitted run_predict) = [name f] /\
       index_builds (emitted run_predict) = [docs] /\
       returned (loader_load (name f) "elements" w2) = inr docs /\
       returned (from_documents docs embeddings w3) = inr vector_store /\
       In (BuildIndex docs embeddings) (emitted run_predict) /\
       In (Retrieve vector_store k input) (emitted run_predict))
  /\
  (forall actions ui w' ui',
     returned (run actions ui w') = inr ui' ->
     length (index_builds (emitted (run actions ui w'))) =
       length (asks actions) /\
     length (file_loads (emitted (run actions ui w'))) =
       length (asks actions)).
Proof.
  intros run_predict. split; [apply predict_emitted_prefix |]. split.
  - intros out H. subst run_predict.
    apply predict_trace in H
      as (f' & model & c & docs & vs & llm & p & a & w2 & w3 &
          [= <-] & _ & Hl & Hb & ->).
    exists docs, {| model_name := model; client := c |}, vs, w2, w3.
    cbn. intuition.
  - intros actions ui w' ui' H. split.
    + eapply (run_count (fun evs => length (index_builds evs))); [| | exact H].
      * intros evs evs'. unfold index_builds.
        rewrite omap_app, length_app. reflexivity.
      * intros ui0 w0 ui0' H0. rewrite send_click_emitted.
        apply send_click_returned in H0 as (out & H0 & _).
        apply predict_trace in H0
          as (f' & model & c & docs & vs & llm & p & a & w2 & w3 &
              _ & _ & _ & _ & ->).
        reflexivity.
    + eapply (run_count (fun evs => length (file_loads evs))); [| | exact H].
      * intros evs evs'. unfold file_loads.
        rewrite omap_app, length_app. reflexivity.
      * intros ui0 w0 ui0' H0. rewrite send_click_emitted.
        apply send_click_returned in H0 as (out & H0 & _).
        apply predict_trace in H0
          as (f' & model & c & docs & vs & llm & p & a & w2 & w3 &
              _ & _ & _ & _ & ->).
        reflexivity.
Qed.

(** C5, as the code has it. For a key outside the catalog, building the
    vector store raises [KeyError] on the key, from the dict lookup,
    before any library call; and a call of [predict] on an uploaded file
    with such a key ends with that [KeyError] after printing the file
    name: it returns nothing and never calls the model. *)
Theorem unknown_model_key_raises_KeyError key :
  key <> "ernie-tiny" -> key <> "ernie-base" -> key <> "text2vec-base" ->
  (forall filepath w,
     init_knowledge_vector_store key filepath w =
     {| returned := inl (KeyError key); final := w; emitted := [] |}) /\
  (forall input f k history_len temperature top_p hist w,
     predict input key (Some f) k history_len temperature top_p hist w =
     {| returned := inl (KeyError key); final := w;
        emitted := [Print (name f)] |}).
Proof.
  intros H1 H2 H3.
  assert (Hinit : forall filepath w,
             init_knowledge_vector_store key filepath w =
             {| returned := inl (KeyError key); final := w; emitted := [] |}).
  { intros filepath w. unfold init_knowledge_vector_store.
    rewrite (bind_raise _ _ _ (KeyError key));
      rewrite (dict_getitem_missing _ _ _ (catalog_lookup_none _ H1 H2 H3));
      reflexivity. }
  split; [exact Hinit |].
  intros input f k n t p hist w. unfold predict.
  rewrite (bind_return (getattr_name (Some f)) _ w (name f) eq_refl).
  cbn [getattr_name final emitted mret M_ret].
  rewrite (bind_return (print (name f)) _ w () eq_refl).
  rewrite print_run. cbn [final emitted app].
  rewrite (bind_raise _ _ _ (KeyError key)); rewrite Hinit; reflexivity.
Qed.

(** C6. Whatever the widgets hold, the clear button leaves the state at
    [None] and the chat display at the empty string: the display shows
    no turn, and the next question is answered exactly as with the empty
    history. *)
Theorem clear_session_empties ui :
  let ui' := clear_history_click ui in
  clear_session = (EmptyString, None) /\
  UI.state ui' = None /\
  UI.chatbot ui' = Text EmptyString /\
  displayed (UI.chatbot ui') = Some [] /\
  (forall input embedding_model file_obj k history_len temperature top_p w,
     predict input embedding_model file_obj k history_len temperature top_p
             (UI.state ui') w =
     predict input embedding_model file_obj k history_len temperature top_p
             (Some []) w).
Proof. cbn. repeat split. Qed.

(** C7, as the code has it. The weights are not cached: every call of
    [predict] that returns has loaded the selected model anew, once in
    the [HuggingFaceEmbeddings] constructor and once more in the
    [SentenceTransformer] constructed for the device ["cpu"]; so over a
    session that ran to its end the weights were loaded twice per
    question asked, and no call reuses what an earlier call loaded. *)
Theorem weights_loaded_on_every_call input embedding_model file_obj k
    history_len temperature top_p hist w out :
  returned (predict input embedding_model file_obj k history_len
              temperature top_p hist w) = inr out ->
  (exists model,
     embedding_model_dict !! embedding_model = Some model /\
     weight_loads (emitted (predict input embedding_model file_obj k
                              history_len temperature top_p hist w))
       = [model; model] /\
     In (LoadEmbeddings model)
        (emitted (predict input embedding_model file_obj k history_len
                    temperature top_p hist w)) /\
     In (LoadSentenceTransformer model DEVICE)
        (emitted (predict input embedding_model file_obj k history_len
                    temperature top_p hist w))) /\
  (forall actions ui w' ui',
     returned (run actions ui w') = inr ui' ->
     length (weight_loads (emitted (run actions ui w'))) =
       (2 * length (asks actions))%nat).
Proof.
  intros H. split.
  - apply predict_trace in H
      as (f & model & c & docs & vs & llm & p & a & w2 & w3 &
          _ & Hm & _ & _ & ->).
    exists model. cbn. intuition.
  - intros actions ui w' ui' Hrun.
    eapply (run_count_by (fun evs => length (weight_loads evs)));
      [| | exact Hrun].
    + intros evs evs'. unfold weight_loads.
      rewrite omap_app, length_app. reflexivity.
    + intros ui0 w0 ui0' H0. rewrite send_click_emitted.
      apply send_click_returned in H0 as (out0 & H0 & _).
      apply predict_trace in H0
        as (f & model & c & docs & vs & llm & p & a & w2 & w3 &
            _ & _ & _ & _ & ->).
      reflexivity.
Qed.

(** C8. Whenever the language model is called, by the answer function,
    by [predict] or by the send button, the object it is called on
    carries the very [temperature] and [top_p] the caller supplied (for
    the button: the values of the two sliders). *)
Theorem sampling_passed_verbatim llm prompt (t p : float) :
  (forall query vector_store k chat_history history_len w,
     In (Generate llm prompt)
        (emitted (get_knowledge_based_answer query vector_store k
                    chat_history history_len t p w)) ->
     temperature llm = t /\ top_p llm = p) /\
  (forall input embedding_model file_obj k history_len hist w,
     In (Generate llm prompt)
        (emitted (predict input embedding_model file_obj k history_len
                    t p hist w)) ->
     temperature llm = t /\ top_p llm = p) /\
  (forall ui w,
     UI.temperature ui = t -> UI.top_p ui = p ->
     In (Generate llm prompt) (emitted (send_click ui w)) ->
     temperature llm = t /\ top_p llm = p).
Proof.
  split; [| split].
  - intros q vs k h n w H.
    apply answer_generate in H as [-> _]. auto.
  - intros q em file k n hist w H.
    apply predict_generate in H as [-> _]. auto.
  - intros ui w <- <- H. rewrite send_click_emitted in H.
    apply predict_generate in H as [-> _]. auto.
Qed.

(** C9. A call of [predict] with [None] for the history is the same
    run as the call with the empty list; any call of the model it makes
    carries no turn; and if it returns, the history it returns is the
    one turn made of the query and the answer. *)
Theorem predict_without_history input embedding_model file_obj k history_len
    temperature top_p w :
  let run_predict := predict input embedding_model file_obj k history_len
                       temperature top_p None w in
  run_predict = predict input embedding_model file_obj k history_len
                  temperature top_p (Some []) w /\
  (forall llm prompt,
     In (Generate llm prompt) (emitted run_predict) -> history llm = []) /\
  (forall out,
     returned run_predict = inr out ->
     exists a, out = (EmptyString, [(input, a)], [(input, a)])).
Proof.
  intros run_predict. split; [reflexivity |]. split.
  - intros llm prompt H. apply predict_generate in H as [-> _].
    cbn [history]. unfold slice_from.
    destruct (0 <? history_len); [apply drop_nil | reflexivity].
  - intros out H.
    apply predict_returned in H as (f & vs & a & _ & _ & _ & ->).
    exists a. reflexivity.
Qed.

(** C10. The first value of every triple [predict] returns is the
    empty string, so the question box, which the send button binds to
    that output, is empty after every send that returns. *)
Theorem predict_clears_question :
  (forall input embedding_model file_obj k history_len temperature top_p
          hist w out,
     returned (predict input embedding_model file_obj k history_len
                 temperature top_p hist w) = inr out ->
     out.1.1 = EmptyString) /\
  (forall ui w ui',
     returned (send_click ui w) = inr ui' -> UI.message ui' = EmptyString).
Proof.
  split.
  - intros q em file k n t p hist w out H.
    apply predict_returned in H as (f & vs & a & _ & _ & _ & ->).
    reflexivity.
  - intros ui w ui' H.
    apply send_click_returned in H as (out & H & -> & _).
    apply predict_returned in H as (f & vs & a & _ & _ & _ & ->).
    reflexivity.
Qed.

End Properties.

(** * The theorems on the concrete backend *)

Lemma history_truncation_witness :
  (0 < 3 ->
     Z.of_nat (length (history (Demo.configured Demo.last_three))) =
       Z.min (Z.of_nat (length Demo.five_turns)) 3 /\
     exists older,
       Demo.five_turns = older ++ history (Demo.configured Demo.last_three)) /\
  (3 = 0 -> history (Demo.configured Demo.last_three) = []).
Proof.
  apply (history_truncation (B := Demo.backend) Demo.question Demo.corpus 1
           Demo.five_turns 3 0.01%float 0.9%float 0%nat
           (Demo.configured Demo.last_three) Demo.prompt).
  vm_compute. right. right. left. reflexivity.
Defined.

Lemma predict_appends_turn_witness :
  exists new,
    returned (predict (B := Demo.backend) Demo.question "ernie-tiny"
                (Some Demo.upload) 1 3 0.01%float 0.9%float
                (Some Demo.five_turns) 0%nat) = inr (EmptyString, new, new) /\
    new = Demo.five_turns ++ [(Demo.question, "Paris")] /\
    last new = Some (Demo.question, "Paris") /\
    (forall i t, Demo.five_turns !! i = Some t -> new !! i = Some t).
Proof.
  apply (predict_appends_turn (B := Demo.backend) Demo.question "ernie-tiny"
           Demo.upload 1 3 0.01%float 0.9%float (Some Demo.five_turns) 0%nat
           Demo.corpus "Paris");
    vm_compute; reflexivity.
Defined.

Lemma predict_rebuilds_index_witness :
  length (index_builds
            (emitted (run (B := Demo.backend)
                        [Ask Demo.question; Clear; Ask Demo.question]
                        Demo.ready 0%nat))) = 2%nat /\
  length (file_loads
            (emitted (run (B := Demo.backend)
                        [Ask Demo.question; Clear; Ask Demo.question]
                        Demo.ready 0%nat))) = 2%nat.
Proof.
  refine (proj2 (proj2 (predict_rebuilds_index (B := Demo.backend)
                          Demo.question "ernie-tiny" Demo.upload 1 3
                          0.01%float 0.9%float None 0%nat))
            [Ask Demo.question; Clear; Ask Demo.question] Demo.ready 0%nat
            _ _).
  vm_compute. reflexivity.
Defined.

(** C5, as stated, fails: on the key ["foo"] the exception is a
    [KeyError], whose class is not [UnknownModelError]. *)
Lemma unknown_key_is_not_UnknownModelError :
  ~ (forall (B : Backend) key filepath w,
       key <> "ernie-tiny" -> key <> "ernie-base" -> key <> "text2vec-base" ->
       exists e,
         returned (init_knowledge_vector_store key filepath w) = inl e /\
         exn_class e = "UnknownModelError").
Proof.
  intros H.
  destruct (H Demo.backend "foo" "notes.txt" 0%nat) as (e & He & Hclass);
    try discriminate.
  vm_compute in He. injection He as <-.
  discriminate Hclass.
Qed.

Lemma unknown_model_key_raises_KeyError_witness :
  (forall filepath w,
     init_knowledge_vector_store (B := Demo.backend) "foo" filepath w =
     {| returned := inl (KeyError "foo"); final := w; emitted := [] |}) /\
  (forall input f k history_len temperature top_p hist w,
     predict (B := Demo.backend) input "foo" (Some f) k history_len
             temperature top_p hist w =
     {| returned := inl (KeyError "foo"); final := w;
        emitted := [Print (name f)] |}).
Proof.
  apply (unknown_model_key_raises_KeyError (B := Demo.backend) "foo");
    discriminate.
Defined.

(** C7, as stated, fails: the second question of a session loads the
    weights again, so they are loaded more than once in the process. *)
Lemma weights_loaded_again_by_second_call :
  ~ (forall (B : Backend) actions ui w,
       (length (weight_loads (emitted (run actions ui w))) <= 1)%nat).
Proof.
  intros H.
  specialize (H Demo.backend [Ask Demo.question; Ask Demo.question]
                Demo.ready 0%nat).
  vm_compute in H. lia.
Qed.

Lemma weights_loaded_on_every_call_witness :
  let sent := predict (B := Demo.backend) Demo.question "ernie-tiny"
                (Some Demo.upload) 1 3 0.01%float 0.9%float None 0%nat in
  (exists model,
     embedding_model_dict !! "ernie-tiny" = Some model /\
     weight_loads (emitted sent) = [model; model] /\
     In (LoadEmbeddings model) (emitted sent) /\
     In (LoadSentenceTransformer model DEVICE) (emitted sent)) /\
  (forall actions ui w' ui',
     returned (run (B := Demo.backend) actions ui w') = inr ui' ->
     length (weight_loads (emitted (run actions ui w'))) =
       (2 * length (asks actions))%nat).
Proof.
  apply (weights_loaded_on_every_call (B := Demo.backend) Demo.question
           "ernie-tiny" (Some Demo.upload) 1 3 0.01%float 0.9%float None 0%nat
           (EmptyString, [(Demo.question, "Paris")],
            [(Demo.question, "Paris")])).
  vm_compute. reflexivity.
Defined.

Lemma sampling_passed_verbatim_witness :
  let sent := predict (B := Demo.backend) Demo.question "ernie-tiny"
                (Some Demo.upload) 1 3 0.01%float 0.9%float None 0%nat in
  In (Generate (Demo.configured []) Demo.prompt) (emitted sent) /\
  temperature (Demo.configured []) = 0.01%float /\
  top_p (Demo.configured []) = 0.9%float.
Proof.
  intros sent.
  assert (H : In (Generate (Demo.configured []) Demo.prompt) (emitted sent)).
  { vm_compute. do 7 right. left. reflexivity. }
  split; [exact H |].
  exact (proj1 (proj2 (sampling_passed_verbatim (B := Demo.backend)
                         (Demo.configured []) Demo.prompt
                         0.01%float 0.9%float))
           Demo.question "ernie-tiny" (Some Demo.upload) 1 3 None 0%nat H).
Defined.

Lemma predict_without_history_witness :
  let fresh := predict (B := Demo.backend) Demo.question "ernie-tiny"
                 (Some Demo.upload) 1 3 0.01%float 0.9%float None 0%nat in
  let out := (EmptyString, [(Demo.question, "Paris")],
              [(Demo.question, "Paris")]) in
  returned fresh = inr out /\
  exists a, out = (EmptyString, [(Demo.question, a)], [(Demo.question, a)]).
Proof.
  intros fresh out.
  assert (H : returned fresh = inr out) by (vm_compute; reflexivity).
  split; [exact H |].
  exact (proj2 (proj2 (predict_without_history (B := Demo.backend)
                         Demo.question "ernie-tiny" (Some Demo.upload) 1 3
                         0.01%float 0.9%float 0%nat)) out H).
Defined.

Lemma predict_clears_question_witness :
  let sent := predict (B := Demo.backend) Demo.question "ernie-tiny"
                (Some Demo.upload) 1 3 0.01%float 0.9%float
                (Some Demo.five_turns) 0%nat in
  let out := (EmptyString, Demo.five_turns ++ [(Demo.question, "Paris")],
              Demo.five_turns ++ [(Demo.question, "Paris")]) in
  returned sent = inr out /\ out.1.1 = EmptyString.
Proof.
  intros sent out.
  assert (H : returned sent = inr out) by (vm_compute; reflexivity).
  split; [exact H |].
  exact (proj1 (predict_clears_question (B := Demo.backend))
           Demo.question "ernie-tiny" (Some Demo.upload) 1 3
           0.01%float 0.9%float (Some Demo.five_turns) 0%nat out H).
Defined.

(** * More properties of the script *)

Section Further.
Context `{B : Backend}.

(** ** Stepping through a run *)

Lemma outcome_eta {X : Type} (o : outcome X) :
  {| returned := returned o; final := final o; emitted := emitted o |} = o.
Proof. destruct o. reflexivity. Qed.

Lemma bind_call_raise {X Y : Type} ev (f : world -> (exn + X) * world)
    (g : X -> M Y) w e w' :
  f w = (inl e, w') ->
  (call ev f ≫= g) w =
  {| returned := inl e; final := w'; emitted := [ev] |}.
Proof.
  intros Hf. rewrite (bind_raise _ _ _ e).
  - rewrite call_final, call_emitted, Hf. reflexivity.
  - rewrite call_returned, Hf. reflexivity.
Qed.

Lemma bind_call_return {X Y : Type} ev (f : world -> (exn + X) * world)
    (g : X -> M Y) w x w' :
  f w = (inr x, w') ->
  (call ev f ≫= g) w =
  {| returned := returned (g x w'); final := final (g x w');
     emitted := ev :: emitted (g x w') |}.
Proof.
  intros Hf. rewrite (bind_return _ _ _ x).
  - rewrite call_final, call_emitted, Hf. reflexivity.
  - rewrite call_returned, Hf. reflexivity.
Qed.

Lemma bind_mret {X Y : Type} (x : X) (g : X -> M Y) w :
  (mret x ≫= g) w = g x w.
Proof.
  unfold mbind, M_bind. cbn.
  rewrite app_nil_l || idtac. apply outcome_eta.
Qed.

(** The chain on the script's template, call by call. *)
Lemma chain_unfold llm vector_store k query w :
  RetrievalQA_call llm vector_store k
    {| template := prompt_template;
       input_variables := ["context"; "question"] |} query w =
  match get_relevant_documents vector_store k query w with
  | (inl e, w2) =>
      {| returned := inl e; final := w2;
         emitted := [Retrieve vector_store k query] |}
  | (inr docs, w2) =>
      let prompt := template_instructions +:+ stuff_documents docs +:+
                    template_question_header +:+ query in
      match ChatGLM_call llm prompt w2 with
      | (inl e, w3) =>
          {| returned := inl e; final := w3;
             emitted := [Retrieve vector_store k query;
                         Generate llm prompt] |}
      | (inr a, w3) =>
          {| returned := inr {| result := a; source_documents := docs |};
             final := w3;
             emitted := [Retrieve vector_store k query;
                         Generate llm prompt] |}
      end
  end.
Proof.
  unfold RetrievalQA_call.
  destruct (get_relevant_documents vector_store k query w)
    as [[e | docs] w2] eqn:Hdocs.
  { rewrite (bind_call_raise _ _ _ _ _ _ Hdocs). reflexivity. }
  rewrite (bind_call_return _ _ _ _ _ _ Hdocs).
  unfold PromptTemplate_format. cbn [template].
  rewrite prompt_template_format. cbn [lift]. rewrite bind_mret.
  cbv zeta.
  destruct (ChatGLM_call llm _ w2) as [[e | a] w3] eqn:Hgen.
  - rewrite (bind_call_raise _ _ _ _ _ _ Hgen). reflexivity.
  - rewrite (bind_call_return _ _ _ _ _ _ Hgen). reflexivity.
Qed.

(** The answer function, call by call. *)
Lemma answer_unfold query vector_store k chat_history history_len t p w :
  get_knowledge_based_answer query vector_store k chat_history history_len
    t p w =
  let llm := {| history := if 0 <? history_len
                           then slice_from (- history_len) chat_history
                           else [];
                temperature := t; top_p := p |} in
  match ChatGLM_init w with
  | (inl e, w1) =>
      {| returned := inl e; final := w1; emitted := [NewChatGLM] |}
  | (inr _, w1) =>
      match get_relevant_documents vector_store k query w1 with
      | (inl e, w2) =>
          {| returned := inl e; final := w2;
             emitted := [NewChatGLM; Retrieve vector_store k query] |}
      | (inr docs, w2) =>
          let prompt := template_instructions +:+ stuff_documents docs +:+
                        template_question_header +:+ query in
          match ChatGLM_call llm prompt w2 with
          | (r, w3) =>
              {| returned := r; final := w3;
                 emitted := [NewChatGLM; Retrieve vector_store k query;
                             Generate llm prompt] |}
          end
      end
  end.
Proof.
  cbv zeta.
  unfold get_knowledge_based_answer, ChatGLM_new.
  destruct (ChatGLM_init w) as [[e | c] w1] eqn:Hnew.
  { rewrite (bind_call_raise _ _ _ _ _ _ Hnew). reflexivity. }
  rewrite (bind_call_return _ _ _ _ _ _ Hnew).
  pose proof (chain_unfold
                {| history := if 0 <? history_len
                              then slice_from (- history_len) chat_history
                              else [];
                   temperature := t; top_p := p |}
                vector_store k query w1) as Hchain.
  cbv zeta in Hchain.
  destruct (get_relevant_documents vector_store k query w1)
    as [[e | docs] w2].
  { rewrite (bind_raise _ _ w1 e); rewrite Hchain; reflexivity. }
  destruct (ChatGLM_call _ _ w2) as [[e | a] w3].
  - rewrite (bind_raise _ _ w1 e); rewrite Hchain; reflexivity.
  - rewrite (bind_return _ _ w1 {| result := a; source_documents := docs |});
      rewrite Hchain; reflexivity.
Qed.

(** [init_knowledge_vector_store], call by call. *)
Lemma init_unfold embedding_model filepath w :
  init_knowledge_vector_store embedding_model filepath w =
  match embedding_model_dict !! embedding_model with
  | None =>
      {| returned := inl (KeyError embedding_model); final := w;
         emitted := [] |}
  | Some model =>
      match HuggingFaceEmbeddings_init model w with
      | (inl e, w1) =>
          {| returned := inl e; final := w1;
             emitted := [LoadEmbeddings model] |}
      | (inr _, w1) =>
          match SentenceTransformer_init model DEVICE w1 with
          | (inl e, w2) =>
              {| returned := inl e; final := w2;
                 emitted := [LoadEmbeddings model;
                             LoadSentenceTransformer model DEVICE] |}
          | (inr c, w2) =>
              match UnstructuredFileLoader_load filepath "elements" w2 with
              | (inl e, w3) =>
                  {| returned := inl e; final := w3;
                     emitted := [LoadEmbeddings model;
                                 LoadSentenceTransformer model DEVICE;
                                 LoadFile filepath "elements"] |}
              | (inr docs, w3) =>
                  let embeddings := {| model_name := model; client := c |} in
                  match FAISS_from_documents docs embeddings w3 with
                  | (r, w4) =>
                      {| returned := r; final := w4;
                         emitted := [LoadEmbeddings model;
                                     LoadSentenceTransformer model DEVICE;
                                     LoadFile filepath "elements";
                                     BuildIndex docs embeddings] |}
                  end
              end
          end
      end
  end.
Proof.
  unfold init_knowledge_vector_store.
  destruct (embedding_model_dict !! embedding_model) as [model |] eqn:Hkey.
  2: { rewrite (bind_raise _ _ w (KeyError embedding_model));
         rewrite (dict_getitem_missing _ _ _ Hkey); reflexivity. }
  assert (Hget : dict_getitem embedding_model_dict embedding_model w =
                 {| returned := inr model; final := w; emitted := [] |}).
  { unfold dict_getitem. rewrite Hkey. reflexivity. }
  rewrite (bind_return _ _ w model); [| rewrite Hget; reflexivity].
  rewrite Hget. cbn [final emitted app]. clear Hget.
  unfold HuggingFaceEmbeddings_new, SentenceTransformer_new, loader_load,
    from_documents.
  destruct (HuggingFaceEmbeddings_init model w) as [[e | c0] w1] eqn:H0.
  { rewrite (bind_raise _ _ w e);
      rewrite (bind_call_raise _ _ _ _ _ _ H0); reflexivity. }
  rewrite (bind_return _ _ w {| model_name := model; client := c0 |});
    [| rewrite (bind_call_return _ _ _ _ _ _ H0); reflexivity].
  rewrite (bind_call_return _ _ _ _ _ _ H0). cbn [final emitted app model_name].
  destruct (SentenceTransformer_init model DEVICE w1) as [[e | c] w2] eqn:H1.
  { rewrite (bind_call_raise _ _ _ _ _ _ H1). reflexivity. }
  rewrite (bind_call_return _ _ _ _ _ _ H1).
  destruct (UnstructuredFileLoader_load filepath "elements" w2)
    as [[e | docs] w3] eqn:H2.
  { rewrite (bind_call_raise _ _ _ _ _ _ H2). reflexivity. }
  rewrite (bind_call_return _ _ _ _ _ _ H2). cbv zeta.
  unfold call. destruct (FAISS_from_documents docs _ w3) as [r w4].
  reflexivity.
Qed.

(** [predict] on an uploaded file, in terms of the two functions it
    calls. *)
Lemma predict_unfold input embedding_model f k history_len t p hist w :
  predict input embedding_model (Some f) k history_len t p hist w =
  let h := state_turns hist in
  let built := init_knowledge_vector_store embedding_model (name f) w in
  match returned built with
  | inl e =>
      {| returned := inl e; final := final built;
         emitted := Print (name f) :: emitted built |}
  | inr vector_store =>
      let answered := get_knowledge_based_answer input vector_store k h
                        history_len t p (final built) in
      match returned answered with
      | inl e =>
          {| returned := inl e; final := final answered;
             emitted := Print (name f) :: emitted built ++ emitted answered |}
      | inr a =>
          {| returned := inr (EmptyString, h ++ [(input, a)],
                              h ++ [(input, a)]);
             final := final answered;
             emitted := Print (name f) :: emitted built ++ emitted answered ++
                        [Print a] |}
      end
  end.
Proof.
  cbv zeta.
  destruct (returned (init_knowledge_vector_store embedding_model (name f) w))
    as [e | vs] eqn:Hvs.
  - unfold predict.
    rewrite (bind_return (getattr_name (Some f)) _ w (name f) eq_refl).
    cbn [getattr_name final emitted mret M_ret].
    rewrite (bind_return (print (name f)) _ w () eq_refl).
    rewrite print_run. cbn [final emitted app].
    rewrite (bind_raise _ _ _ _ Hvs). reflexivity.
  - destruct (returned (get_knowledge_based_answer input vs k (state_turns hist)
                          history_len t p _)) as [e | a] eqn:Ha.
    + unfold predict.
      rewrite (bind_return (getattr_name (Some f)) _ w (name f) eq_refl).
      cbn [getattr_name final emitted mret M_ret].
      rewrite (bind_return (print (name f)) _ w () eq_refl).
      rewrite print_run. cbn [final emitted app].
      rewrite (bind_return _ _ _ _ Hvs).
      rewrite (bind_raise _ _ _ _ Ha). reflexivity.
    + apply (predict_run _ _ _ _ _ _ _ _ _ _ _ Hvs Ha).
Qed.

Lemma predict_no_file input embedding_model k history_len t p hist w :
  predict input embedding_model None k history_len t p hist w =
  {| returned := inl (AttributeError "'NoneType' object has no attribute 'name'");
     final := w; emitted := [] |}.
Proof.
  unfold predict.
  rewrite (bind_raise (getattr_name None) _ w _ eq_refl). reflexivity.
Qed.

(** ** Which events each function can emit *)

Lemma init_only_loads embedding_model filepath w ev :
  In ev (emitted (init_knowledge_vector_store embedding_model filepath w)) ->
  match ev with
  | LoadEmbeddings _ | LoadSentenceTransformer _ _ | LoadFile _ _
  | BuildIndex _ _ => True
  | _ => False
  end.
Proof.
  rewrite init_unfold.
  destruct (embedding_model_dict !! embedding_model) as [model |];
    [| intros []].
  destruct (HuggingFaceEmbeddings_init model w) as [[e | c0] w1];
    [cbn; intuition (subst; exact I) |].
  destruct (SentenceTransformer_init model DEVICE w1) as [[e | c] w2];
    [cbn; intuition (subst; exact I) |].
  destruct (UnstructuredFileLoader_load filepath "elements" w2)
    as [[e | docs] w3]; [cbn; intuition (subst; exact I) |].
  cbv zeta. destruct (FAISS_from_documents docs _ w3) as [r w4].
  cbn; intuition (subst; exact I).
Qed.

Lemma init_llm_calls embedding_model filepath w :
  llm_calls (emitted (init_knowledge_vector_store embedding_model filepath w))
  = [].
Proof.
  rewrite init_unfold.
  destruct (embedding_model_dict !! embedding_model) as [model |];
    [| reflexivity].
  destruct (HuggingFaceEmbeddings_init model w) as [[e | c0] w1];
    [reflexivity |].
  destruct (SentenceTransformer_init model DEVICE w1) as [[e | c] w2];
    [reflexivity |].
  destruct (UnstructuredFileLoader_load filepath "elements" w2)
    as [[e | docs] w3]; [reflexivity |].
  cbv zeta. destruct (FAISS_from_documents docs _ w3) as [r w4].
  reflexivity.
Qed.

Lemma llm_calls_app evs evs' :
  llm_calls (evs ++ evs') = llm_calls evs ++ llm_calls evs'.
Proof. apply omap_app. Qed.

(** A run of the answer function that called the model ends with that
    call and returns what the call gave. *)
Lemma answer_after_generate query vector_store k chat_history history_len
    t p w llm prompt :
  In (Generate llm prompt)
     (emitted (get_knowledge_based_answer query vector_store k chat_history
                 history_len t p w)) ->
  exists w2,
    emitted (get_knowledge_based_answer query vector_store k chat_history
               history_len t p w) =
      [NewChatGLM; Retrieve vector_store k query; Generate llm prompt] /\
    returned (get_knowledge_based_answer query vector_store k chat_history
                history_len t p w) = (ChatGLM_call llm prompt w2).1.
Proof.
  rewrite answer_unfold. cbv zeta.
  destruct (ChatGLM_init w) as [[e | c] w1];
    [cbn; intuition discriminate |].
  destruct (get_relevant_documents vector_store k query w1)
    as [[e | docs] w2]; [cbn; intuition discriminate |].
  destruct (ChatGLM_call _ _ w2) as [r w3] eqn:Hgen.
  cbn. intros [H | [H | [H | []]]]; try discriminate.
  injection H as <- <-. exists w2. rewrite Hgen. auto.
Qed.

Lemma answer_llm_calls_le query vector_store k chat_history history_len
    t p w :
  (length (llm_calls (emitted (get_knowledge_based_answer query vector_store
                                 k chat_history history_len t p w))) <= 1)%nat.
Proof.
  rewrite answer_unfold. cbv zeta.
  destruct (ChatGLM_init w) as [[e | c] w1]; [cbn; lia |].
  destruct (get_relevant_documents vector_store k query w1)
    as [[e | docs] w2]; [cbn; lia |].
  destruct (ChatGLM_call _ _ w2) as [r w3]. cbn. lia.
Qed.

Lemma answer_retrieve query vector_store k chat_history history_len
    t p w vs' k' q' :
  In (Retrieve vs' k' q')
     (emitted (get_knowledge_based_answer query vector_store k chat_history
                 history_len t p w)) ->
  vs' = vector_store /\ k' = k /\ q' = query.
Proof.
  rewrite answer_unfold. cbv zeta.
  destruct (ChatGLM_init w) as [[e | c] w1];
    [cbn; intuition discriminate |].
  destruct (get_relevant_documents vector_store k query w1)
    as [[e | docs] w2].
  - cbn. intros [H | [H | []]]; try discriminate.
    injection H as <- <- <-. auto.
  - destruct (ChatGLM_call _ _ w2) as [r w3].
    cbn. intros [H | [H | [H | []]]]; try discriminate.
    injection H as <- <- <-. auto.
Qed.

(** ** The send button, field by field *)

Lemma send_click_result ui w ui' :
  returned (send_click ui w) = inr ui' ->
  exists a,
    UI.state ui' =
      Some (state_turns (UI.state ui) ++ [(UI.message ui, a)]) /\
    UI.chatbot ui' =
      Turns (state_turns (UI.state ui) ++ [(UI.message ui, a)]) /\
    UI.message ui' = EmptyString /\
    settings ui' = settings ui.
Proof.
  intros H. unfold send_click in H.
  apply bind_returned in H as ([[msg c] s] & Hout & H & _ & _).
  cbn in H. injection H as <-.
  apply predict_returned in Hout as (f & vs & a & _ & _ & _ & [= -> -> ->]).
  exists a. cbn. auto.
Qed.

(** ** The prompt *)

Lemma append_assoc_r a b c : (a +:+ b) +:+ c = a +:+ (b +:+ c).
Proof.
  induction a as [| x a IH]; [reflexivity |].
  change (String x (a +:+ b) +:+ c = String x (a +:+ b +:+ c)).
  change (String x ((a +:+ b) +:+ c) = String x (a +:+ b +:+ c)).
  rewrite IH. reflexivity.
Qed.

Lemma document_prompt_format d :
  str_format document_prompt [("page_content", page_content d)] =
  inr (format_document d).
Proof.
  assert (Hparse : parse_format document_prompt EmptyString None =
                   inr [Lit ("Context:" +:+ nl); Field "page_content"])
    by (vm_compute; reflexivity).
  unfold str_format. rewrite Hparse. cbn [render kwargs_get].
  change (String.eqb "page_content" "page_content") with true.
  cbn iota. rewrite append_empty_r. reflexivity.
Qed.

(** C4. The template is a constant of the script with exactly two
    replacement fields, [context] then [question]; formatting it puts the
    context text and the question text, unchanged, at those two places
    and nothing else varies; its fixed text tells the model to answer
    from the known information, to say that the question cannot be
    answered from it or that not enough information was given, and not to
    add fabricated content. The context text is the retrieved documents
    in the retriever's order, each as its text under the line "Context:",
    with a blank line between two of them. And the pipeline does compose
    this prompt: when [ChatGLM()] returns and the retriever returns
    [docs], the pipeline calls the model exactly once, on the template
    filled with the context text of [docs] and the query; conversely
    every prompt the model is called on is of this form, for the
    documents the retriever returned in this run. *)
Theorem prompt_composition :
  parse_format prompt_template EmptyString None =
    inr [Lit template_instructions; Field "context";
         Lit template_question_header; Field "question"] /\
  (forall context question,
     PromptTemplate_format
       {| template := prompt_template;
          input_variables := ["context"; "question"] |}
       [("context", context); ("question", question)] =
     inr (template_instructions +:+ context +:+
          template_question_header +:+ question)) /\
  contains "基于以下已知信息，简洁和专业的来回答用户的问题。"
           template_instructions = true /\
  contains ("如果无法从中得到答案，请说 " +:+
            dq +:+ "根据已知信息无法回答该问题" +:+ dq +:+ " 或 " +:+
            dq +:+ "没有提供足够的相关信息" +:+ dq)
           template_instructions = true /\
  contains "不允许在答案中添加编造成分" template_instructions = true /\
  (stuff_documents [] = EmptyString /\
   (forall d, str_format document_prompt [("page_content", page_content d)]
              = inr ("Context:" +:+ nl +:+ page_content d)) /\
   (forall d, stuff_documents [d] = "Context:" +:+ nl +:+ page_content d) /\
   (forall d d' rest,
      stuff_documents (d :: d' :: rest) =
      "Context:" +:+ nl +:+ page_content d +:+ nl +:+ nl +:+
      stuff_documents (d' :: rest))) /\
  (forall query vector_store k chat_history history_len temperature top_p
          w c w1 docs w2,
     ChatGLM_init w = (inr c, w1) ->
     get_relevant_documents vector_store k query w1 = (inr docs, w2) ->
     exists llm,
       llm_calls (emitted (get_knowledge_based_answer query vector_store k
                             chat_history history_len temperature top_p w)) =
       [(llm, template_instructions +:+ stuff_documents docs +:+
              template_question_header +:+ query)]) /\
  (forall query vector_store k chat_history history_len temperature top_p
          w llm prompt,
     In (Generate llm prompt)
        (emitted (get_knowledge_based_answer query vector_store k
                    chat_history history_len temperature top_p w)) ->
     exists c w1 docs w2,
       ChatGLM_init w = (inr c, w1) /\
       get_relevant_documents vector_store k query w1 = (inr docs, w2) /\
       prompt = template_instructions +:+ stuff_documents docs +:+
                template_question_header +:+ query).
Proof.
  split; [exact prompt_template_parse |].
  split; [intros context question; apply prompt_template_format |].
  split; [vm_compute; reflexivity |].
  split; [vm_compute; reflexivity |].
  split; [vm_compute; reflexivity |].
  split.
  { split; [reflexivity |].
    split; [exact document_prompt_format |].
    split; [reflexivity |].
    intros d d' rest. unfold stuff_documents. cbn [fmap list_fmap str_join].
    unfold format_document at 1.
    rewrite !append_assoc_r. reflexivity. }
  split.
  - intros query vs k h n t p w c w1 docs w2 Hnew Hdocs.
    rewrite answer_unfold. cbv zeta. rewrite Hnew, Hdocs.
    destruct (ChatGLM_call _ _ w2) as [r w3]. cbn.
    eexists. reflexivity.
  - intros query vs k h n t p w llm prompt.
    rewrite answer_unfold. cbv zeta.
    destruct (ChatGLM_init w) as [[e | c] w1] eqn:Hnew;
      [cbn; intuition discriminate |].
    destruct (get_relevant_documents vs k query w1) as [[e | docs] w2]
      eqn:Hdocs; [cbn; intuition discriminate |].
    destruct (ChatGLM_call _ _ w2) as [r w3].
    cbn. intros [H | [H | [H | []]]]; try discriminate.
    injection H as <- <-. exists c, w1, docs, w2. auto.
Qed.

(** ** Failures *)


(** X2. Whenever [init_knowledge_vector_store] builds an index, it builds
    it from the documents the loader returned for the given path in mode
    "elements", with an embeddings object named after the catalogued
    model of the key and whose client is the one constructed by
    [SentenceTransformer(model_name, device="cpu")]. *)
Theorem index_built_from_loaded_file embedding_model filepath w docs embeddings :
  In (BuildIndex docs embeddings)
     (emitted (init_knowledge_vector_store embedding_model filepath w)) ->
  exists w1 w2,
    embedding_model_dict !! embedding_model = Some (model_name embeddings) /\
    (SentenceTransformer_init (model_name embeddings) "cpu" w1).1
      = inr (client embeddings) /\
    (UnstructuredFileLoader_load filepath "elements" w2).1 = inr docs.
Proof.
  rewrite init_unfold.
  destruct (embedding_model_dict !! embedding_model) as [model |];
    [| intros []].
  destruct (HuggingFaceEmbeddings_init model w) as [[e | c0] w1];
    [cbn; intuition discriminate |].
  destruct (SentenceTransformer_init model DEVICE w1) as [[e | c] w2] eqn:Hst;
    [cbn; intuition discriminate |].
  destruct (UnstructuredFileLoader_load filepath "elements" w2)
    as [[e | d] w3] eqn:Hload; [cbn; intuition discriminate |].
  cbv zeta. destruct (FAISS_from_documents d _ w3) as [r w4].
  cbn. intros [H | [H | [H | [H | []]]]]; try discriminate.
  injection H as <- <-. exists w1, w2. cbn [model_name client].
  unfold DEVICE in Hst. rewrite Hst, Hload. auto.
Qed.

(** X3. A file the loader rejects is found out only after the embeddings
    object and the sentence-transformers model were constructed: the
    loader's exception ends [init_knowledge_vector_store] and [predict],
    no index is built and no [ChatGLM] object is made. *)
Theorem rejected_file_fails_after_model_loads input embedding_model f k
    history_len t p hist w model c0 w1 c w2 e w3 :
  embedding_model_dict !! embedding_model = Some model ->
  HuggingFaceEmbeddings_init model w = (inr c0, w1) ->
  SentenceTransformer_init model DEVICE w1 = (inr c, w2) ->
  UnstructuredFileLoader_load (name f) "elements" w2 = (inl e, w3) ->
  init_knowledge_vector_store embedding_model (name f) w =
    {| returned := inl e; final := w3;
       emitted := [LoadEmbeddings model;
                   LoadSentenceTransformer model DEVICE;
                   LoadFile (name f) "elements"] |} /\
  predict input embedding_model (Some f) k history_len t p hist w =
    {| returned := inl e; final := w3;
       emitted := [Print (name f);
                   LoadEmbeddings model;
                   LoadSentenceTransformer model DEVICE;
                   LoadFile (name f) "elements"] |}.
Proof.
  intros Hkey H0 H1 H2.
  assert (Hinit : init_knowledge_vector_store embedding_model (name f) w =
                  {| returned := inl e; final := w3;
                     emitted := [LoadEmbeddings model;
                                 LoadSentenceTransformer model DEVICE;
                                 LoadFile (name f) "elements"] |}).
  { rewrite init_unfold, Hkey, H0, H1, H2. reflexivity. }
  split; [exact Hinit |].
  rewrite predict_unfold. cbv zeta. rewrite Hinit. reflexivity.
Qed.

(** X4. No retry: whatever happens, one call of [predict] calls the
    language model at most once. *)
Theorem model_called_at_most_once input embedding_model file_obj k history_len
    t p hist w :
  (length (llm_calls (emitted (predict input embedding_model file_obj k
                                 history_len t p hist w))) <= 1)%nat.
Proof.
  destruct file_obj as [f |]; [| rewrite predict_no_file; cbn; lia].
  rewrite predict_unfold. cbv zeta.
  destruct (returned (init_knowledge_vector_store embedding_model (name f) w))
    as [e | vs].
  - cbn [emitted].
    change (llm_calls (Print (name f) :: ?l)) with (llm_calls l).
    rewrite init_llm_calls. cbn. lia.
  - pose proof (answer_llm_calls_le input vs k (state_turns hist) history_len
                  t p (final (init_knowledge_vector_store embedding_model
                                (name f) w))) as Hle.
    destruct (returned (get_knowledge_based_answer input vs k _ _ _ _ _));
      cbn [emitted];
      change (llm_calls (Print (name f) :: ?l)) with (llm_calls l);
      rewrite !llm_calls_app, init_llm_calls; cbn [app];
      rewrite ?app_nil_r; exact Hle.
Qed.


(** ** The catalog and the dropdown *)

(** X6. The dropdown offers exactly the keys of [embedding_model_dict]:
    a key is a choice if and only if the lookup finds a model for it, and
    for a choice [init_knowledge_vector_store] gets past the lookup and
    starts by constructing the embeddings object for the model found. *)
Theorem dropdown_choices_are_the_catalog key :
  (In key embedding_model_choices <->
   is_Some (embedding_model_dict !! key)) /\
  (In key embedding_model_choices ->
   forall filepath w,
   exists model rest,
     embedding_model_dict !! key = Some model /\
     emitted (init_knowledge_vector_store key filepath w) =
       LoadEmbeddings model :: rest).
Proof.
  assert (Hiff : In key embedding_model_choices <->
                 is_Some (embedding_model_dict !! key)).
  { split.
    - intros [<- | [<- | [<- | []]]]; vm_compute; eauto.
    - intros Hsome.
      destruct (decide (key = "ernie-tiny")) as [-> | H1]; [cbn; auto |].
      destruct (decide (key = "ernie-base")) as [-> | H2]; [cbn; auto |].
      destruct (decide (key = "text2vec-base")) as [-> | H3]; [cbn; auto |].
      rewrite (catalog_lookup_none key H1 H2 H3) in Hsome.
      destruct Hsome as [x Hx]. discriminate. }
  split; [exact Hiff |].
  intros Hin filepath w. apply Hiff in Hin as [model Hmodel].
  rewrite init_unfold, Hmodel.
  destruct (HuggingFaceEmbeddings_init model w) as [[e | c0] w1]; [eauto |].
  destruct (SentenceTransformer_init model DEVICE w1) as [[e | c] w2];
    [eauto |].
  destruct (UnstructuredFileLoader_load filepath "elements" w2)
    as [[e | docs] w3]; [eauto |].
  cbv zeta. destruct (FAISS_from_documents docs _ w3) as [r w4]. eauto.
Qed.

(** ** The history sent to the model *)

Lemma slice_last_snoc {A : Type} n (l : list A) x :
  0 < n -> last (slice_from (- n) (l ++ [x])) = Some x.
Proof.
  intros Hn. unfold slice_from.
  destruct (Z.ltb_spec (- n) 0) as [_ | Hge]; [| lia].
  rewrite length_app. cbn [length].
  rewrite drop_app_le by lia. apply last_snoc.
Qed.

(** X7. For every [history_len], negative ones too, the model receives
    [min H (max 0 history_len)] turns of a conversation of [H] turns: the
    whole conversation as it is when [history_len] is at least [H], and
    nothing when [history_len] is zero or negative. *)
Theorem history_sent_length query vector_store k chat_history history_len
    t p w llm prompt :
  In (Generate llm prompt)
     (emitted (get_knowledge_based_answer query vector_store k chat_history
                 history_len t p w)) ->
  Z.of_nat (length (history llm)) =
    Z.min (Z.of_nat (length chat_history)) (Z.max 0 history_len) /\
  (Z.of_nat (length chat_history) <= history_len ->
   history llm = chat_history) /\
  (history_len <= 0 -> history llm = []).
Proof.
  intros H. apply answer_generate in H as [-> _]. cbn [history].
  destruct (Z.ltb_spec 0 history_len) as [Hpos | Hneg].
  - split; [rewrite slice_last_length by exact Hpos; lia |].
    split; [apply slice_last_all | lia].
  - split; [cbn; lia |]. split; [| reflexivity].
    intros Hall. destruct chat_history; [reflexivity | cbn in Hall; lia].
Qed.

(** X8. With [HISTORY_LEN] at least one, the exchange a send has just
    added to the state is the last turn the model receives on the next
    question. *)
Theorem next_question_sees_last_exchange ui w ui1 question w' llm prompt :
  returned (send_click ui w) = inr ui1 ->
  0 < UI.HISTORY_LEN ui ->
  In (Generate llm prompt)
     (emitted (send_click (type_message question ui1) w')) ->
  exists a,
    UI.state ui1 = Some (state_turns (UI.state ui) ++ [(UI.message ui, a)]) /\
    last (history llm) = Some (UI.message ui, a).
Proof.
  intros Hsend Hpos Hin.
  apply send_click_result in Hsend as (a & Hstate & _ & _ & Hset).
  exists a. split; [exact Hstate |].
  rewrite send_click_emitted in Hin. cbn [type_message UI.message
    UI.embedding_model UI.file UI.VECTOR_SEARCH_TOP_K UI.HISTORY_LEN
    UI.temperature UI.top_p UI.state] in Hin.
  apply predict_generate in Hin as [-> _]. cbn [history].
  injection Hset as _ _ _ Hlen _ _. rewrite Hlen, Hstate.
  destruct (Z.ltb_spec 0 (UI.HISTORY_LEN ui)) as [_ | Hle]; [| lia].
  apply slice_last_snoc. exact Hpos.
Qed.

(** ** Sessions *)

Lemma step_result a ui w ui' :
  returned (step a ui w) = inr ui' ->
  match a with
  | Ask q =>
      exists ans,
        UI.state ui' = Some (state_turns (UI.state ui) ++ [(q, ans)]) /\
        UI.chatbot ui' = Turns (state_turns (UI.state ui) ++ [(q, ans)])
  | Clear => UI.state ui' = None /\ UI.chatbot ui' = Text EmptyString
  end /\
  settings ui' = settings ui.
Proof.
  destruct a as [q |]; cbn [step]; intros H.
  - apply send_click_result in H as (ans & Hs & Hc & _ & Hset).
    split; [exists ans; split; assumption | exact Hset].
  - cbn in H. injection H as <-. cbn. auto.
Qed.

Lemma run_preserves (P : UI.t -> Prop) :
  (forall a ui w ui', returned (step a ui w) = inr ui' -> P ui -> P ui') ->
  forall actions ui w ui',
    returned (run actions ui w) = inr ui' -> P ui -> P ui'.
Proof.
  intros Hstep. induction actions as [| a actions IH]; intros ui w ui' H HP.
  - cbn in H. injection H as <-. exact HP.
  - cbn [run] in H. apply bind_returned in H as (ui1 & H1 & H & _ & _).
    eapply IH; [exact H |]. eapply Hstep; eassumption.
Qed.

(** X9. Over a session that ran to its end, the questions of the turns
    in the state are the questions asked since the last clear, in the
    order asked, after those already there if it was never cleared: the
    history only grows at its end, one turn per question, and only a
    clear shortens it. *)
Theorem session_history_is_questions_asked actions ui w ui' :
  returned (run actions ui w) = inr ui' ->
  (state_turns (UI.state ui')).*1 =
  asked_since_clear actions ((state_turns (UI.state ui)).*1).
Proof.
  revert ui w. induction actions as [| a actions IH]; intros ui w H.
  - cbn in H. injection H as <-. reflexivity.
  - cbn [run] in H. apply bind_returned in H as (ui1 & H1 & H & _ & _).
    rewrite (IH _ _ H). unfold asked_since_clear. cbn [fold_left].
    f_equal. apply step_result in H1 as [H1 _].
    destruct a as [q |].
    + destruct H1 as (ans & -> & _). cbn [state_turns].
      rewrite fmap_app. reflexivity.
    + destruct H1 as [-> _]. reflexivity.
Qed.

(** X10. No handler writes to a settings widget: over a session that ran
    to its end the model choice, the file and the four sliders are what
    they were at the start. *)
Theorem handlers_keep_settings actions ui w ui' :
  returned (run actions ui w) = inr ui' ->
  settings ui' = settings ui.
Proof.
  intros H.
  eapply (run_preserves (fun u => settings u = settings ui));
    [| exact H | reflexivity].
  intros a u w0 u' Hstep Hu. apply step_result in Hstep as [_ Hset].
  rewrite Hset. exact Hu.
Qed.

(** ** What a call that returns did *)

(** X11. The answer in the turn [predict] appends is the string the
    model call returned, as it is, and printing it is the last thing
    [predict] does. *)
Theorem answer_is_model_output input embedding_model file_obj k history_len
    t p hist w out :
  let sent := predict input embedding_model file_obj k history_len t p hist w in
  returned sent = inr out ->
  exists llm prompt w2 a,
    In (Generate llm prompt) (emitted sent) /\
    (ChatGLM_call llm prompt w2).1 = inr a /\
    out = (EmptyString, state_turns hist ++ [(input, a)],
           state_turns hist ++ [(input, a)]) /\
    last (emitted sent) = Some (Print a).
Proof.
  intros sent H. subst sent.
  apply predict_returned in H as (f & vs & a & -> & Hvs & Ha & ->).
  rewrite (predict_run _ _ _ _ _ _ _ _ _ _ _ Hvs Ha). cbn [emitted].
  destruct (answer_returned _ _ _ _ _ _ _ _ _ Ha) as (docs & Hev).
  assert (Hin : In (Generate
                      {| history := if 0 <? history_len
                                    then slice_from (- history_len)
                                           (match hist with
                                            | Some h => h | None => [] end)
                                    else [];
                         temperature := t; top_p := p |}
                      (template_instructions +:+ stuff_documents docs +:+
                       template_question_header +:+ input))
                   (emitted (get_knowledge_based_answer input vs k
                               (match hist with Some h => h | None => [] end)
                               history_len t p
                               (final (init_knowledge_vector_store
                                         embedding_model (name f) w))))).
  { rewrite Hev. cbn. auto. }
  destruct (answer_after_generate _ _ _ _ _ _ _ _ _ _ Hin) as (w2 & _ & Hr).
  rewrite Ha in Hr.
  eexists _, _, w2, a.
  split; [right; apply in_app_iff; right; apply in_app_iff; left; exact Hin |].
  split; [symmetry; exact Hr |]. split; [reflexivity |].
  rewrite app_comm_cons, app_assoc. apply last_snoc.
Qed.

(** X12. The retriever is asked with the very [VECTOR_SEARCH_TOP_K] and
    query that [predict] was given, on the store that
    [init_knowledge_vector_store] returned in this same call. *)
Theorem retrieval_arguments input embedding_model file_obj k history_len
    t p hist w vector_store k' query :
  In (Retrieve vector_store k' query)
     (emitted (predict input embedding_model file_obj k history_len
                 t p hist w)) ->
  k' = k /\ query = input /\
  exists f,
    file_obj = Some f /\
    returned (init_knowledge_vector_store embedding_model (name f) w) =
      inr vector_store.
Proof.
  destruct file_obj as [f |]; [| rewrite predict_no_file; intros []].
  rewrite predict_unfold. cbv zeta.
  destruct (returned (init_knowledge_vector_store embedding_model (name f) w))
    as [e | vs] eqn:Hvs.
  { cbn. intros [H | H]; [discriminate |].
    apply init_only_loads in H. destruct H. }
  assert (Hans : forall evs,
             In (Retrieve vector_store k' query)
                (Print (name f) ::
                 emitted (init_knowledge_vector_store embedding_model
                            (name f) w) ++
                 emitted (get_knowledge_based_answer input vs k
                            (state_turns hist) history_len t p
                            (final (init_knowledge_vector_store
                                      embedding_model (name f) w))) ++ evs) ->
             (forall ev, In ev evs -> exists s, ev = Print s) ->
             k' = k /\ query = input /\ vs = vector_store).
  { intros evs [H | H] Hevs; [discriminate |].
    apply in_app_iff in H as [H | H];
      [apply init_only_loads in H; destruct H |].
    apply in_app_iff in H as [H | H].
    - apply answer_retrieve in H as (-> & -> & ->). auto.
    - apply Hevs in H as [s H]. discriminate. }
  assert (Hgoal : k' = k /\ query = input /\ vs = vector_store ->
                  k' = k /\ query = input /\
                  exists f0,
                    Some f = Some f0 /\
                    returned (init_knowledge_vector_store embedding_model
                                (name f0) w) = inr vector_store).
  { intros (-> & -> & <-). eauto. }
  destruct (returned (get_knowledge_based_answer input vs k _ _ _ _ _))
    as [e | a]; cbn [emitted]; intros H; apply Hgoal.
  - apply (Hans []); [rewrite app_nil_r; exact H | intros ev []].
  - apply (Hans [Print a]); [exact H |].
    intros ev [<- | []]. eauto.
Qed.

End Further.

(** * The further theorems on the concrete backends *)

Lemma prompt_composition_witness :
  exists llm,
    llm_calls (emitted (get_knowledge_based_answer (B := Demo.backend)
                          Demo.question Demo.corpus 1 Demo.five_turns 3
                          0.01%float 0.9%float 0%nat)) =
    [(llm, template_instructions +:+ stuff_documents Demo.corpus +:+
           template_question_header +:+ Demo.question)].
Proof.
  refine (proj1 (proj2 (proj2 (proj2 (proj2 (proj2 (proj2
            (prompt_composition (B := Demo.backend))))))))
            Demo.question Demo.corpus 1 Demo.five_turns 3
            0.01%float 0.9%float 0%nat (Demo.configured []) 1%nat
            Demo.corpus 2%nat _ _);
    vm_compute; reflexivity.
Defined.


Lemma index_built_from_loaded_file_witness :
  exists w1 w2,
    embedding_model_dict !! "ernie-tiny" =
      Some (model_name Session.ernie_nano) /\
    (SentenceTransformer_init (Backend := Demo.backend)
       (model_name Session.ernie_nano) "cpu" w1).1
      = inr (client Session.ernie_nano) /\
    (UnstructuredFileLoader_load (Backend := Demo.backend)
       (name Demo.upload) "elements" w2).1 = inr Demo.corpus.
Proof.
  apply (index_built_from_loaded_file (B := Demo.backend) "ernie-tiny"
           (name Demo.upload) 0%nat Demo.corpus Session.ernie_nano).
  vm_compute. do 3 right. left. reflexivity.
Defined.

Lemma rejected_file_fails_after_model_loads_witness :
  init_knowledge_vector_store (B := Faulty.unreadable) "ernie-tiny"
    (name Demo.upload) 0%nat =
    {| returned := inl Faulty.invalid_file;
       final := (3%nat : @world Faulty.unreadable);
       emitted := [LoadEmbeddings "nghuyong/ernie-3.0-nano-zh";
                   LoadSentenceTransformer "nghuyong/ernie-3.0-nano-zh" DEVICE;
                   LoadFile (name Demo.upload) "elements"] |} /\
  predict (B := Faulty.unreadable) Demo.question "ernie-tiny"
    (Some Demo.upload) 1 3 0.01%float 0.9%float None 0%nat =
    {| returned := inl Faulty.invalid_file;
       final := (3%nat : @world Faulty.unreadable);
       emitted := [Print (name Demo.upload);
                   LoadEmbeddings "nghuyong/ernie-3.0-nano-zh";
                   LoadSentenceTransformer "nghuyong/ernie-3.0-nano-zh" DEVICE;
                   LoadFile (name Demo.upload) "elements"] |}.
Proof.
  apply (rejected_file_fails_after_model_loads (B := Faulty.unreadable)
           Demo.question "ernie-tiny" Demo.upload 1 3 0.01%float 0.9%float
           None 0%nat "nghuyong/ernie-3.0-nano-zh"
           "nghuyong/ernie-3.0-nano-zh" 1%nat
           "nghuyong/ernie-3.0-nano-zh" 2%nat Faulty.invalid_file 3%nat);
    vm_compute; reflexivity.
Defined.


Lemma dropdown_choices_are_the_catalog_witness :
  exists model rest,
    embedding_model_dict !! "ernie-base" = Some model /\
    emitted (init_knowledge_vector_store (B := Demo.backend) "ernie-base"
               (name Demo.upload) 0%nat) = LoadEmbeddings model :: rest.
Proof.
  refine (proj2 (dropdown_choices_are_the_catalog (B := Demo.backend)
                   "ernie-base") _ (name Demo.upload) 0%nat).
  vm_compute. right. left. reflexivity.
Defined.

Lemma history_sent_length_witness :
  Z.of_nat (length (history (Demo.configured []))) =
    Z.min (Z.of_nat (length Demo.five_turns)) (Z.max 0 (-2)) /\
  (Z.of_nat (length Demo.five_turns) <= -2 ->
   history (Demo.configured []) = Demo.five_turns) /\
  (-2 <= 0 -> history (Demo.configured []) = []).
Proof.
  apply (history_sent_length (B := Demo.backend) Demo.question Demo.corpus 1
           Demo.five_turns (-2) 0.01%float 0.9%float 0%nat
           (Demo.configured []) Demo.prompt).
  vm_compute. right. right. left. reflexivity.
Defined.

Lemma next_question_sees_last_exchange_witness :
  exists a,
    UI.state Session.after_first =
      Some (state_turns (UI.state (type_message Demo.question Demo.ready)) ++
            [(UI.message (type_message Demo.question Demo.ready), a)]) /\
    last (history (Demo.configured [(Demo.question, "Paris")])) =
      Some (UI.message (type_message Demo.question Demo.ready), a).
Proof.
  apply (next_question_sees_last_exchange (B := Demo.backend)
           (type_message Demo.question Demo.ready) 0%nat Session.after_first
           Session.follow_up 7%nat
           (Demo.configured [(Demo.question, "Paris")])
           Session.follow_up_prompt).
  - vm_compute. reflexivity.
  - vm_compute. reflexivity.
  - vm_compute. do 7 right. left. reflexivity.
Defined.

Lemma session_history_is_questions_asked_witness :
  exists ui',
    returned (run (B := Demo.backend) Session.actions Demo.ready 0%nat)
      = inr ui' /\
    (state_turns (UI.state ui')).*1 = ["b"; "c"].
Proof.
  destruct (returned (run (B := Demo.backend) Session.actions Demo.ready 0%nat))
    as [e | ui'] eqn:H; [vm_compute in H; discriminate |].
  exists ui'. split; [reflexivity |].
  exact (session_history_is_questions_asked (B := Demo.backend)
           Session.actions Demo.ready 0%nat ui' H).
Defined.

Lemma handlers_keep_settings_witness :
  exists ui',
    returned (run (B := Demo.backend) Session.actions Demo.ready 0%nat)
      = inr ui' /\
    settings ui' = settings Demo.ready.
Proof.
  destruct (returned (run (B := Demo.backend) Session.actions Demo.ready 0%nat))
    as [e | ui'] eqn:H; [vm_compute in H; discriminate |].
  exists ui'. split; [reflexivity |].
  exact (handlers_keep_settings (B := Demo.backend) Session.actions Demo.ready
           0%nat ui' H).
Defined.

Lemma answer_is_model_output_witness :
  let sent := predict (B := Demo.backend) Demo.question "ernie-tiny"
                (Some Demo.upload) 1 3 0.01%float 0.9%float
                (Some Demo.five_turns) 0%nat in
  exists llm prompt w2 a,
    In (Generate llm prompt) (emitted sent) /\
    (ChatGLM_call (Backend := Demo.backend) llm prompt w2).1 = inr a /\
    (EmptyString, Demo.five_turns ++ [(Demo.question, "Paris")],
     Demo.five_turns ++ [(Demo.question, "Paris")]) =
    (EmptyString, state_turns (Some Demo.five_turns) ++ [(Demo.question, a)],
     state_turns (Some Demo.five_turns) ++ [(Demo.question, a)]) /\
    last (emitted sent) = Some (Print a).
Proof.
  apply (answer_is_model_output (B := Demo.backend) Demo.question "ernie-tiny"
           (Some Demo.upload) 1 3 0.01%float 0.9%float (Some Demo.five_turns)
           0%nat).
  vm_compute. reflexivity.
Defined.

Lemma retrieval_arguments_witness :
  1 = 1 /\ Demo.question = Demo.question /\
  exists f,
    Some Demo.upload = Some f /\
    returned (init_knowledge_vector_store (B := Demo.backend) "ernie-tiny"
                (name f) 0%nat) = inr Demo.corpus.
Proof.
  apply (retrieval_arguments (B := Demo.backend) Demo.question "ernie-tiny"
           (Some Demo.upload) 1 3 0.01%float 0.9%float None 0%nat
           Demo.corpus 1 Demo.question).
  vm_compute. do 6 right. left. reflexivity.
Defined.
